(** * kubernetes-mcp-server: tool adaptation pipeline and output pruning

    A shallow embedding of
    - [pkg/output]: [PruneForStructuredOutput], the normaliser of result
      trees (exercised by prune_test.go);
    - [pkg/mcp]: [sessionElicitor.Elicit], the mutators [ComposeMutators],
      [WithTargetParameter] and [WithTargetListTool] with the handler
      [createTargetListHandler], and the filter
      [ShouldIncludeTargetListTool];
    followed by the properties the specification states about them.

    The embedding comes first: ordered mappings and result trees, the parts
    of the Go library the code calls, the heap that schema pointers, Go maps
    and slices live in, the descriptor records of [pkg/api], and the
    functions of [pkg/mcp].  Mutators and handlers are functions of the heap
    that may fail; filters and the normaliser are pure. *)

From Stdlib Require Import String Ascii List ZArith Bool Lia Sorted.
From stdpp Require Import gmap strings list fin_maps pretty.
From stdpp Require Import sorting.

Local Open Scope string_scope.
Local Open Scope list_scope.

(** ** Ordered mappings

  The result trees of [pkg/output] are Go [map[string]interface{}] values;
  the specification describes them as ordered mappings from keys to values.
  An ordered mapping is a list of entries; the three operations below are
  Go's [m[k]], [delete(m, k)] and [m[k] = v].  A mapping built from Go data
  has no repeated key; the operations are nevertheless total on every list,
  [get] reading the first entry of a key and [remove] dropping all of them. *)

Module OrderedMap.
Section Ops.
Context {A : Type}.

Fixpoint get (k : string) (m : list (string * A)) : option A :=
  match m with
  | [] => None
  | (k', x) :: r => if String.eqb k k' then Some x else get k r
  end.

Fixpoint remove (k : string) (m : list (string * A)) : list (string * A) :=
  match m with
  | [] => []
  | (k', x) :: r =>
      if String.eqb k k' then remove k r else (k', x) :: remove k r
  end.

Fixpoint set (k : string) (v : A) (m : list (string * A)) : list (string * A) :=
  match m with
  | [] => [(k, v)]
  | (k', x) :: r =>
      if String.eqb k k' then (k, v) :: r else (k', x) :: set k v r
  end.

(** [m[k] = f(m[k])] when the key is present. *)
Fixpoint update (k : string) (f : A -> A) (m : list (string * A)) : list (string * A) :=
  match m with
  | [] => []
  | (k', x) :: r =>
      if String.eqb k k' then (k', f x) :: r else (k', x) :: update k f r
  end.

Definition keys (m : list (string * A)) : list string := map fst m.
End Ops.
End OrderedMap.

(** ** pkg/output: result trees and their normalisation *)

Module Output.
Import OrderedMap.

Unset Elimination Schemes.
Inductive Value : Type :=
| Null
| Boolean (b : bool)
| Number (n : Z)
| Str (s : string)
| Sequence (l : list Value)
| Mapping (m : list (string * Value)).
Set Elimination Schemes.

Definition metadataKey : string := "metadata".
Definition managedFieldsKey : string := "managedFields".
Definition annotationsKey : string := "annotations".
Definition lastAppliedKey : string :=
  "kubectl.kubernetes.io/last-applied-configuration".
Definition itemsKey : string := "items".

(** Modelled from the spec: prune.go is not part of the sources, only its
  test suite is.  Pruning rules (a)-(d) of section 4.4, applied to the
  [metadata] mapping of one resource, in the order the spec fixes:
  (a) drop the field-ownership entry, (b) drop the last-applied annotation
  when [annotations] is a mapping, (c) drop [annotations] when that leaves
  it empty, (d) leave everything else alone. *)
Definition pruneMetadata (md : list (string * Value)) : list (string * Value) :=
  let md1 := remove managedFieldsKey md in
  match get annotationsKey md1 with
  | Some (Mapping a) =>
      match remove lastAppliedKey a with
      | [] => remove annotationsKey md1
      | a' => set annotationsKey (Mapping a') md1
      end
  | _ => md1
  end.

(** Modelled from the spec: rule 1 applied to the elements of an [items]
  sequence and rule 2 on the elements of a sequence both act on mapping
  elements only; every other element passes through. *)
Definition onMappings (f : Value -> Value) (e : Value) : Value :=
  match e with
  | Mapping _ => f e
  | _ => e
  end.

Definition onSequence (f : list Value -> list Value) (x : Value) : Value :=
  match x with
  | Sequence its => Sequence (f its)
  | _ => x
  end.

(** Modelled from the spec: prune.go is not part of the sources.  The
  dispatch on shape of section 4.4:
  1. a mapping with a [metadata] sub-mapping is a resource: its metadata is
     pruned, and when it also has an [items] sequence each item is
     normalised as a resource of its own;
  2. a sequence is normalised element-wise, non-mapping elements pass;
  3. any other value is returned as it is. *)
Fixpoint PruneForStructuredOutput (v : Value) : Value :=
  match v with
  | Mapping m =>
      match get metadataKey m with
      | Some (Mapping md) =>
          Mapping
            (set metadataKey (Mapping (pruneMetadata md))
               (update itemsKey
                  (onSequence (map (onMappings PruneForStructuredOutput))) m))
      | _ => v
      end
  | Sequence l => Sequence (map (onMappings PruneForStructuredOutput) l)
  | _ => v
  end.

End Output.

(** ** The Go library, as far as the code uses it *)

Module errors.

(** Go error values.  An error made by [errors.New] is a pointer, so two
    errors with the same text are different errors.  The only comparison the
    code asks for is [errors.Is] against a package-level sentinel; the
    embedding therefore keeps the identity of an error held in a package
    variable (by the variable's name) and treats every other error as a
    value.  [wrapError] is what [fmt.Errorf] returns for a [%w] verb. *)
Inductive error : Type :=
| sentinelError (var : string) (text : string)
| errorString (text : string)
| wrapError (msg : string) (err : error).

(** [err.Error()] *)
Definition Error (e : error) : string :=
  match e with
  | sentinelError _ text => text
  | errorString text => text
  | wrapError msg _ => msg
  end.

(** [errors.Unwrap(err)] *)
Definition Unwrap (e : error) : option error :=
  match e with
  | wrapError _ err => Some err
  | _ => None
  end.

(** [err == target], where [target] is the error held in the package-level
    variable [var].  These are the only targets an error can be compared
    with here: the other errors carry no address, so [err == target] for
    such a target (true in Go when both are the same pointer) is not
    expressed. *)
Definition same (e : error) (var : string) : bool :=
  match e with
  | sentinelError v _ => String.eqb v var
  | _ => false
  end.

(** [errors.Is(err, target)], for the target held in the package-level
    variable [var]: walk the [Unwrap] chain looking for it *)
Fixpoint Is (e : error) (var : string) : bool :=
  same e var ||
  match e with
  | wrapError _ err => Is err var
  | _ => false
  end.

(** [fmt.Errorf(format, ...)] without [%w], and with one [%w] operand; the
    argument is the formatted text. *)
Definition Errorf (text : string) : error := errorString text.
Definition Errorf_w (text : string) (err : error) : error := wrapError text err.

End errors.

Module GoStrings.

(** [strings.Contains(s, substr)] *)
Fixpoint Contains (s substr : string) : bool :=
  String.prefix substr s ||
  match s with
  | EmptyString => false
  | String _ s' => Contains s' substr
  end.

Definition newline : string := String (ascii_of_nat 10) EmptyString.

(** [sort.Strings] orders by [<] on strings, which is byte-wise
    lexicographic order; equal strings are indistinguishable, so the result
    is the sorted permutation whatever the algorithm. *)
Fixpoint insertSorted (x : string) (l : list string) : list string :=
  match l with
  | [] => [x]
  | y :: r => if String.leb x y then x :: y :: r else y :: insertSorted x r
  end.

Definition sortStrings (l : list string) : list string :=
  foldr insertSorted [] l.

End GoStrings.

(** ** Memory

    Descriptors are passed by value, but a descriptor's input schema is a
    pointer ([*jsonschema.Schema]), the schema's parameter table is a Go map
    (a reference) of schema pointers, and a target list is a slice over a
    backing array.  These three kinds of object live in the heap; everything
    that is written through a pointer is visible to whoever else holds it. *)

Definition loc := positive.

Module jsonschema.
(** The fields of [jsonschema.Schema] the code reads or writes.  A nil map
    is [None]. *)
Record Schema : Type := mkSchema {
  Type_ : string;
  Description : string;
  Properties : option loc;
}.
End jsonschema.

(** [[]string]: backing array (nil for the nil slice), offset and length. *)
Record Slice : Type := mkSlice {
  base : option loc;
  off : nat;
  len : nat;
}.

Record Heap : Type := mkHeap {
  schemas : gmap loc jsonschema.Schema;
  propmaps : gmap loc (gmap string loc);
  arrays : gmap loc (list string);
}.

Module Memory.

Definition setSchemas (h : Heap) (x : gmap loc jsonschema.Schema) : Heap :=
  {| schemas := x; propmaps := propmaps h; arrays := arrays h |}.
Definition setPropmaps (h : Heap) (x : gmap loc (gmap string loc)) : Heap :=
  {| schemas := schemas h; propmaps := x; arrays := arrays h |}.
Definition setArrays (h : Heap) (x : gmap loc (list string)) : Heap :=
  {| schemas := schemas h; propmaps := propmaps h; arrays := x |}.

(** [&jsonschema.Schema{...}] *)
Definition newSchema (s : jsonschema.Schema) (h : Heap) : loc * Heap :=
  let l := fresh (dom (schemas h)) in
  (l, setSchemas h (<[l := s]> (schemas h))).

(** [make(map[string]*jsonschema.Schema)] *)
Definition newPropMap (h : Heap) : loc * Heap :=
  let l := fresh (dom (propmaps h)) in
  (l, setPropmaps h (<[l := ∅]> (propmaps h))).

(** The elements a slice denotes; [None] when it does not lie within an
    allocated array (which no Go slice does). *)
Definition readSlice (h : Heap) (s : Slice) : option (list string) :=
  match base s with
  | None => if Nat.eqb (len s) 0 then Some [] else None
  | Some l =>
      a ← arrays h !! l;
      if Nat.leb (off s + len s) (length a)
      then Some (take (len s) (drop (off s) a))
      else None
  end.

(** Overwrite the elements of a slice, in its backing array. *)
Definition writeSlice (s : Slice) (xs : list string) (h : Heap) : option Heap :=
  if negb (Nat.eqb (length xs) (len s)) then None else
  match base s with
  | None => if Nat.eqb (len s) 0 then Some h else None
  | Some l =>
      a ← arrays h !! l;
      if Nat.leb (off s + len s) (length a)
      then Some (setArrays h
             (<[l := take (off s) a ++ xs ++ drop (off s + len s) a]> (arrays h)))
      else None
  end.

(** [make([]string, n)]: a fresh array of [n] empty strings *)
Definition makeStrings (n : nat) (h : Heap) : Slice * Heap :=
  let l := fresh (dom (arrays h)) in
  ({| base := Some l; off := 0; len := n |},
   setArrays h (<[l := replicate n EmptyString]> (arrays h))).

(** [s[:n]] *)
Definition slicePrefix (s : Slice) (n : nat) : Slice :=
  {| base := base s; off := off s; len := n |}.

(** [copy(dst, src)]: copies [min(len(dst), len(src))] elements *)
Definition copyStrings (dst src : Slice) (h : Heap) : option Heap :=
  let n := Nat.min (len dst) (len src) in
  xs ← readSlice h (slicePrefix src n);
  writeSlice (slicePrefix dst n) xs h.

(** [sort.Strings(x)]: sorts the elements of [x] in place *)
Definition sortStringsInPlace (x : Slice) (h : Heap) : option Heap :=
  xs ← readSlice h x;
  writeSlice x (GoStrings.sortStrings xs) h.

End Memory.

(** ** The MCP SDK and the invocation context, at their interface *)

Module sdk.

Record ElicitParams : Type := mkElicitParams {
  Message : string;
  RequestedSchema : option loc;
}.

Record ElicitResult : Type := mkElicitResult {
  Action : string;
  Content : option (gmap string Output.Value);
}.

(** [*mcp.ServerSession], seen through its [Elicit] method.  The SDK returns
    either a result or an error, never both and never neither. *)
Record ServerSession : Type := mkServerSession {
  Elicit : ElicitParams -> ElicitResult + errors.error;
}.

End sdk.

(** What [ctx.Value(mcplog.MCPSessionContextKey)] holds: nothing, a value of
    another type, or a [*mcp.ServerSession] (which may be a nil pointer). *)
Inductive ctxValue : Type :=
| NoValue
| OtherValue
| SessionValue (session : option sdk.ServerSession).

Record Context : Type := mkContext {
  MCPSessionContextKey : ctxValue;
}.

(** ** pkg/api: descriptors *)

Module api.

Record ToolAnnotations : Type := mkToolAnnotations {
  Title : string;
  ReadOnlyHint : option bool;
  DestructiveHint : option bool;
  IdempotentHint : option bool;
  OpenWorldHint : option bool;
}.

Record Tool : Type := mkTool {
  Name : string;
  Description : string;
  Annotations : ToolAnnotations;
  InputSchema : option loc;
}.

(** [api.ToolCallResult] and its constructor are declared outside the
    sources at hand; the handlers and their tests use exactly the two fields
    [Content] and [Error], filled from the constructor's two arguments. *)
Record ToolCallResult : Type := mkToolCallResult {
  Content : string;
  Error : option errors.error;
}.

Definition NewToolCallResult (content : string) (err : option errors.error)
  : ToolCallResult :=
  {| Content := content; Error := err |}.

Record ElicitResult : Type := mkElicitResult {
  Action : string;
  ElicitContent : option (gmap string Output.Value);
}.

Record ToolHandlerParams : Type := mkToolHandlerParams {
  Context_ : Context;
}.

(** A handler returns a result pointer and an error; it runs against the heap,
    and has no outcome ([None]) if it touches memory that is not there. *)
Definition ToolHandlerFunc : Type :=
  ToolHandlerParams -> Heap ->
  option ((option ToolCallResult * option errors.error) * Heap).

Record ServerTool : Type := mkServerTool {
  Tool_ : Tool;
  Handler : option ToolHandlerFunc;
  ClusterAware : option bool;
  TargetListProvider : option bool;
}.

(** Modelled from the spec: the method is declared outside the sources at
    hand.  "cluster-aware?: optional boolean (default true)". *)
Definition IsClusterAware (tool : ServerTool) : bool :=
  match ClusterAware tool with
  | Some b => b
  | None => true
  end.

(** Modelled from the spec: the method is declared outside the sources at
    hand.  "target-list-provider?: optional boolean"; a descriptor is flagged
    when the field is set to true. *)
Definition IsTargetListProvider (tool : ServerTool) : bool :=
  match TargetListProvider tool with
  | Some b => b
  | None => false
  end.

Definition setTool (tool : ServerTool) (t : Tool) : ServerTool :=
  {| Tool_ := t; Handler := Handler tool;
     ClusterAware := ClusterAware tool;
     TargetListProvider := TargetListProvider tool |}.

Definition setHandler (tool : ServerTool) (f : ToolHandlerFunc) : ServerTool :=
  {| Tool_ := Tool_ tool; Handler := Some f;
     ClusterAware := ClusterAware tool;
     TargetListProvider := TargetListProvider tool |}.

Definition setInputSchema (t : Tool) (p : option loc) : Tool :=
  {| Name := Name t; Description := Description t;
     Annotations := Annotations t; InputSchema := p |}.

End api.

(** The target provider, at its interface: [GetTargets] returns a slice and
    an error, and may itself allocate. *)
Record Provider : Type := mkProvider {
  GetTargets : Context -> Heap -> (Slice * option errors.error) * Heap;
}.

(** ** pkg/mcp *)

Module Mcp.
Import api.

(** *** elicit.go

    The sources hold two revisions of [sessionElicitor.Elicit]; they differ
    in the treatment of a session error only.  The earlier one returns
    every session error as it is (with a note that the unsupported-client
    case is still to be handled); the later one, followed here and exercised
    by TestElicitationWithUnsupportedClient, declares the sentinel and wraps
    it around that case. *)

Definition ErrElicitationNotSupported : errors.error :=
  errors.sentinelError "ErrElicitationNotSupported"
    "client does not support elicitation".

Definition Elicit (ctx : Context) (message : string)
    (requestedSchema : option loc)
  : option api.ElicitResult * option errors.error :=
  match MCPSessionContextKey ctx with
  | SessionValue (Some session) =>
      match sdk.Elicit session
              {| sdk.Message := message;
                 sdk.RequestedSchema := requestedSchema |} with
      | inr err =>
          if GoStrings.Contains (errors.Error err) "does not support elicitation"
          then (None,
                Some (errors.Errorf_w
                        (errors.Error ErrElicitationNotSupported
                           +:+ ": " +:+ errors.Error err)
                        ErrElicitationNotSupported))
          else (None, Some err)
      | inl result =>
          (Some {| Action := sdk.Action result;
                   ElicitContent := sdk.Content result |}, None)
      end
  | _ => (None, Some (errors.Errorf "no MCP session found in context"))
  end.

(** The earlier revision: no sentinel, every session error is returned as
    it is. *)
Definition ElicitEarlier (ctx : Context) (message : string)
    (requestedSchema : option loc)
  : option api.ElicitResult * option errors.error :=
  match MCPSessionContextKey ctx with
  | SessionValue (Some session) =>
      match sdk.Elicit session
              {| sdk.Message := message;
                 sdk.RequestedSchema := requestedSchema |} with
      | inr err => (None, Some err)
      | inl result =>
          (Some {| Action := sdk.Action result;
                   ElicitContent := sdk.Content result |}, None)
      end
  | _ => (None, Some (errors.Errorf "no MCP session found in context"))
  end.

(** *** tool_mutator.go *)

(** A mutator takes a descriptor by value and returns one; what it writes
    through the descriptor's pointers it writes to the heap. *)
Definition ToolMutator : Type :=
  ServerTool -> Heap -> option (ServerTool * Heap).

Definition ComposeMutators (mutators : list ToolMutator) : ToolMutator :=
  fun tool h =>
    foldl (fun acc m => '(tool, h) ← acc; m tool h) (Some (tool, h)) mutators.

Definition TargetsListToolName : string := "targets_list".

(** The schema value [createTargetProperty] builds ([baseSchema] in the
    source), and the function itself, which allocates it. *)
Definition baseSchema (defaultCluster targetName : string)
  : jsonschema.Schema :=
  {| jsonschema.Type_ := "string";
     jsonschema.Description :=
       "Optional parameter selecting which " +:+ targetName
         +:+ " to run the tool in. Defaults to " +:+ defaultCluster
         +:+ " if not set";
     jsonschema.Properties := None |}.

Definition createTargetProperty (defaultCluster targetName : string)
    (h : Heap) : loc * Heap :=
  Memory.newSchema (baseSchema defaultCluster targetName) h.

Definition WithTargetParameter (defaultCluster targetParameterName : string)
    (isMultiCluster : bool) : ToolMutator :=
  fun tool h =>
    if negb (IsClusterAware tool) || negb isMultiCluster then Some (tool, h)
    else
      let '(sp, h1) :=
        match InputSchema (Tool_ tool) with
        | None =>
            Memory.newSchema
              {| jsonschema.Type_ := "object";
                 jsonschema.Description := "";
                 jsonschema.Properties := None |} h
        | Some sp => (sp, h)
        end in
      s ← schemas h1 !! sp;
      let '(mp, h2) :=
        match jsonschema.Properties s with
        | None =>
            let '(mp, h') := Memory.newPropMap h1 in
            (mp,
             Memory.setSchemas h'
               (<[sp := {| jsonschema.Type_ := jsonschema.Type_ s;
                           jsonschema.Description := jsonschema.Description s;
                           jsonschema.Properties := Some mp |}]> (schemas h')))
        | Some mp => (mp, h1)
        end in
      let '(pp, h3) :=
        createTargetProperty defaultCluster targetParameterName h2 in
      pm ← propmaps h3 !! mp;
      Some (setTool tool (setInputSchema (Tool_ tool) (Some sp)),
            Memory.setPropmaps h3
              (<[mp := <[targetParameterName := pp]> pm]> (propmaps h3))).

Section TargetList.

(** [strings.ToUpper], the Go library's Unicode upper-casing (it also
    rewrites bytes that are not valid UTF-8); the code is followed for any
    such function. *)
Variable ToUpper : string -> string.

Definition capitalizeFirst (s : string) : string :=
  match s with
  | EmptyString => s
  | String c r => ToUpper (String c EmptyString) +:+ r
  end.

(** The text the handler builds from the sorted slice (the body of the
    handler from [result := ...] to the usage hint). *)
Definition targetListReport (targetParameterName defaultTarget : string)
    (sortedTargets : list string) : string :=
  let nl := GoStrings.newline in
  let result :=
    "Available " +:+ targetParameterName +:+ "s ("
      +:+ pretty (length sortedTargets) +:+ " total, default: "
      +:+ defaultTarget +:+ "):" +:+ nl +:+ nl in
  let result :=
    result +:+ "Format: [*] " +:+ ToUpper targetParameterName +:+ "_NAME" +:+ nl in
  let result :=
    result +:+ " (" +:+ "* indicates the default " +:+ targetParameterName
      +:+ " used in tools if " +:+ targetParameterName +:+ " is not set)"
      +:+ nl +:+ nl in
  let result :=
    result +:+ capitalizeFirst targetParameterName +:+ "s:" +:+ nl
      +:+ "---------" +:+ nl in
  let result :=
    foldl (fun result target =>
             let marker :=
               if String.eqb target defaultTarget then "*" else " " in
             result +:+ marker +:+ " " +:+ target +:+ nl)
          result sortedTargets in
  let result := result +:+ "---------" +:+ nl +:+ nl in
  result +:+ "To use a specific " +:+ targetParameterName
    +:+ " with any tool, set the '" +:+ targetParameterName
    +:+ "' parameter in the tool call arguments".

Definition createTargetListHandler (p : Provider)
    (targetParameterName defaultTarget : string) : ToolHandlerFunc :=
  fun params h =>
    let '((targets, err), h1) := GetTargets p (Context_ params) h in
    match err with
    | Some err =>
        Some ((Some (NewToolCallResult ""
                 (Some (errors.Errorf_w
                          ("failed to find any targets: " +:+ errors.Error err)
                          err))),
               None), h1)
    | None =>
        if Nat.eqb (len targets) 0
        then Some ((Some (NewToolCallResult
                            ("No " +:+ targetParameterName +:+ "s available")
                            None),
                    None), h1)
        else
          let '(sortedTargets, h2) := Memory.makeStrings (len targets) h1 in
          h3 ← Memory.copyStrings sortedTargets targets h2;
          h4 ← Memory.sortStringsInPlace sortedTargets h3;
          xs ← Memory.readSlice h4 sortedTargets;
          Some ((Some (NewToolCallResult
                         (targetListReport targetParameterName defaultTarget xs)
                         None),
                 None), h4)
    end.

Definition WithTargetListTool (defaultTarget targetParameterName : string)
    (p : Provider) : ToolMutator :=
  fun tool h =>
    if negb (String.eqb (Name (Tool_ tool)) TargetsListToolName)
    then Some (tool, h)
    else
      let t := Tool_ tool in
      let a := Annotations t in
      Some
        (setHandler
           (setTool tool
              {| Name := targetParameterName +:+ "_list";
                 Description :=
                   "List all available " +:+ targetParameterName
                     +:+ "s that can be targeted by tools";
                 Annotations :=
                   {| Title := capitalizeFirst targetParameterName +:+ " List";
                      ReadOnlyHint := ReadOnlyHint a;
                      DestructiveHint := DestructiveHint a;
                      IdempotentHint := IdempotentHint a;
                      OpenWorldHint := OpenWorldHint a |};
                 InputSchema := InputSchema t |})
           (createTargetListHandler p targetParameterName defaultTarget),
         h).

End TargetList.

(** *** tool_filter.go *)

Definition ToolFilter : Type := ServerTool -> bool.

Section TargetListFilter.

(** The spec fixes the filter's answer for unflagged descriptors, for the
    single-target topology and for the two named target-list descriptors.
    For a flagged descriptor of any other name it fixes nothing; that answer
    is left open. *)
Variable otherTargetListTools : bool.

(** Modelled from the spec: tool_filter.go is not part of the sources, only
    its test suite is.  Section 4.2: unflagged descriptors pass; flagged ones
    are excluded under single-target topology; under multi-target topology
    the legacy descriptor is included only for the parameter name "context"
    and the mutated descriptor ["<targetParameterName>_list"] only for any
    other parameter name. *)
Definition ShouldIncludeTargetListTool (targetParameterName : string)
    (multiTargetEnabled : bool) : ToolFilter :=
  fun tool =>
    if negb (IsTargetListProvider tool) then true
    else if negb multiTargetEnabled then false
    else if String.eqb (Name (Tool_ tool)) "configuration_contexts_list"
    then String.eqb targetParameterName "context"
    else if String.eqb (Name (Tool_ tool)) (targetParameterName +:+ "_list")
    then negb (String.eqb targetParameterName "context")
    else otherTargetListTools.

End TargetListFilter.

End Mcp.

(** ** Notions the properties are stated with *)

Module Observe.
Import api.

(** The non-resource shapes of rule 3 that the no-op property is about:
    Null, a scalar, or a mapping with no [metadata] entry. *)
Definition nonResourceShape (v : Output.Value) : bool :=
  match v with
  | Output.Null | Output.Boolean _ | Output.Number _ | Output.Str _ => true
  | Output.Sequence _ => false
  | Output.Mapping m =>
      match OrderedMap.get Output.metadataKey m with
      | None => true
      | Some _ => false
      end
  end.

(** A descriptor flagged as a target-list provider, of a given name. *)
Definition flagged (name : string) : ServerTool :=
  {| Tool_ := {| Name := name; Description := "";
                 Annotations := mkToolAnnotations "" None None None None;
                 InputSchema := None |};
     Handler := None; ClusterAware := None;
     TargetListProvider := Some true |}.

(** The session, when the context carries a live one. *)
Definition liveSession (ctx : Context) : option sdk.ServerSession :=
  match MCPSessionContextKey ctx with
  | SessionValue (Some session) => Some session
  | _ => None
  end.

(** What the live session answers to the elicitation request. *)
Definition sessionAnswer (ctx : Context) (message : string)
    (requestedSchema : option loc)
  : option (sdk.ElicitResult + errors.error) :=
  session ← liveSession ctx;
  Some (sdk.Elicit session
          {| sdk.Message := message; sdk.RequestedSchema := requestedSchema |}).

(** A context whose session belongs to a client without the elicitation
    capability (the client of TestElicitationWithUnsupportedClient). *)
Definition unsupportedClient : Context :=
  {| MCPSessionContextKey :=
       SessionValue
         (Some {| sdk.Elicit := fun _ =>
                    inr (errors.errorString
                           "client does not support elicitation") |}) |}.

(** The session reports that the client lacks the elicitation capability:
    it fails with an error saying so. *)
Definition reportsNoElicitation (answer : option (sdk.ElicitResult + errors.error))
  : bool :=
  match answer with
  | Some (inr err) =>
      GoStrings.Contains (errors.Error err) "does not support elicitation"
  | _ => false
  end.

(** The error a session answers with is the SDK's own: it is not, and does
    not wrap, this package's sentinel. *)
Definition foreignAnswer (answer : option (sdk.ElicitResult + errors.error))
  : bool :=
  match answer with
  | Some (inr err) => negb (errors.Is err "ErrElicitationNotSupported")
  | _ => true
  end.

Definition emptyHeap : Heap := {| schemas := ∅; propmaps := ∅; arrays := ∅ |}.



(** The provider of the mutator tests: it answers with the slice and the
    error it was built with, and touches nothing. *)
Definition mockProvider (targets : Slice) (err : option errors.error)
  : Provider :=
  {| GetTargets := fun _ h => ((targets, err), h) |}.

Definition nilSlice : Slice := {| base := None; off := 0; len := 0 |}.

(** A heap with one array of three targets, out of order, and the slice
    over all of it. *)
Definition threeTargetsHeap : Heap :=
  {| schemas := ∅; propmaps := ∅;
     arrays := {[ 1%positive := ["cluster-2"; "cluster-3"; "cluster-1"] ]} |}.

Definition threeTargets : Slice :=
  {| base := Some 1%positive; off := 0; len := 3 |}.

Definition background : ToolHandlerParams :=
  {| Context_ := {| MCPSessionContextKey := NoValue |} |}.

(** [createTestToolWithNilSchema] of the mutator tests. *)
Definition createTestToolWithNilSchema (name : string) : ServerTool :=
  {| Tool_ := {| Name := name; Description := "A test tool";
                 Annotations := mkToolAnnotations "" None None None None;
                 InputSchema := None |};
     Handler := None; ClusterAware := None; TargetListProvider := None |}.

(** Every pointer in the heap points to an allocated object: a schema's
    parameter table is allocated, and so is every schema a table holds. *)
Definition closedHeap (h : Heap) : Prop :=
  map_Forall (fun _ s =>
     match jsonschema.Properties s with
     | None => True
     | Some mp => is_Some (propmaps h !! mp)
     end) (schemas h) /\
  map_Forall (fun _ pm =>
     map_Forall (fun (_ : string) l => is_Some (schemas h !! l)) pm)
    (propmaps h).

(** The descriptor's schema pointer, when set, is allocated. *)
Definition schemaAllocated (h : Heap) (tool : ServerTool) : Prop :=
  match InputSchema (Tool_ tool) with
  | None => True
  | Some sp => is_Some (schemas h !! sp)
  end.

(** The type of the descriptor's input schema, when it has one. *)
Definition inputSchemaType (h : Heap) (tool : ServerTool) : option string :=
  sp ← InputSchema (Tool_ tool);
  s ← schemas h !! sp;
  Some (jsonschema.Type_ s).


End Observe.

(** ** Inputs the further properties are instantiated at *)

Module Fixtures.
Import api.

(** A context whose session fails for a reason of its own. *)
Definition timedOutClient : Context :=
  {| MCPSessionContextKey :=
       SessionValue
         (Some {| sdk.Elicit := fun _ =>
                    inr (errors.errorString "context deadline exceeded") |}) |}.

(** A mutator in the style of TestToolMutatorType: it prefixes the name. *)
Definition prefixName (prefix : string) : Mcp.ToolMutator :=
  fun tool h =>
    Some (setTool tool
            {| Name := prefix +:+ Name (Tool_ tool);
               Description := Description (Tool_ tool);
               Annotations := Annotations (Tool_ tool);
               InputSchema := InputSchema (Tool_ tool) |}, h).

(** [createTestToolWithExistingProperties] of the mutator tests, with the
    heap its literals allocate: an object schema at 1 whose table (at 1)
    binds "existing-prop" to the string schema at 2. *)
Definition existingPropertiesHeap : Heap :=
  {| schemas :=
       <[1%positive := {| jsonschema.Type_ := "object";
                          jsonschema.Description := "";
                          jsonschema.Properties := Some 1%positive |}]>
         {[ 2%positive := {| jsonschema.Type_ := "string";
                             jsonschema.Description := "";
                             jsonschema.Properties := None |} ]};
     propmaps := {[ 1%positive := {[ "existing-prop" := 2%positive ]} ]};
     arrays := ∅ |}.

Definition createTestToolWithExistingProperties (name : string) : ServerTool :=
  {| Tool_ := {| Name := name; Description := "A test tool";
                 Annotations := mkToolAnnotations "" None None None None;
                 InputSchema := Some 1%positive |};
     Handler := None; ClusterAware := None; TargetListProvider := None |}.

(** [context.Canceled], a sentinel of the Go library. *)
Definition contextCanceled : errors.error :=
  errors.sentinelError "context.Canceled" "context canceled".

(** The three targets of [threeTargetsHeap], listed in ascending order. *)
Definition sortedTargetsHeap : Heap :=
  {| schemas := ∅; propmaps := ∅;
     arrays := {[ 1%positive := ["cluster-1"; "cluster-2"; "cluster-3"] ]} |}.

(** Lookups of the contexts for the handlers of the config toolset: one
    that answers with the three targets, one that was cancelled. *)
Definition threeContexts :
  ToolHandlerParams -> Context -> Heap -> (Slice * option errors.error) * Heap :=
  fun _ _ h => ((Observe.threeTargets, None), h).

Definition cancelledLookup :
  ToolHandlerParams -> Context -> Heap -> (Slice * option errors.error) * Heap :=
  fun _ _ h => (({| base := None; off := 0; len := 0 |}, Some contextCanceled), h).

Definition defaultIsCluster2 : ToolHandlerParams -> string :=
  fun _ => "cluster-2".

End Fixtures.

(** ** The clients of the elicitation suite *)

Module Client.

(** The function a client answers elicitation requests with
    ([test.WithElicitationHandler]): a result, or an error. *)
Definition ElicitationHandler : Type :=
  sdk.ElicitParams -> sdk.ElicitResult + errors.error.

(** The session of a client, as the elicitation suite sets clients up.  A
    client started with an elicitation handler has the elicitation
    capability, and the session's [Elicit] returns what the handler answers;
    when the handler fails, the error the session returns carries the
    handler's text behind whatever the transport puts in front of it
    ([relayed]).  A client started with no handler has not the capability
    (TestElicitationWithUnsupportedClient), and the session fails with the
    SDK's report of that. *)
Definition sessionOf (relayed : string) (handler : option ElicitationHandler)
  : sdk.ServerSession :=
  {| sdk.Elicit := fun params =>
       match handler with
       | Some answer =>
           match answer params with
           | inl result => inl result
           | inr err =>
               inr (errors.errorString (relayed +:+ errors.Error err))
           end
       | None =>
           inr (errors.errorString "client does not support elicitation")
       end |}.

Definition contextOf (relayed : string) (handler : option ElicitationHandler)
  : Context :=
  {| MCPSessionContextKey := SessionValue (Some (sessionOf relayed handler)) |}.

(** A handler that turns the request down with an error of its own. *)
Definition refusingForm : ElicitationHandler :=
  fun _ =>
    inr (errors.errorString
           "this form does not support elicitation of secrets").

End Client.

(** ** pkg/toolsets/config: configuration.go *)

Module config.
Import api.

Section Handlers.

(** The methods of [api.ToolHandlerParams] the two handlers call are
    declared outside the sources at hand; each is taken as a function of the
    receiver.  [GetTargets] returns a slice and an error and may allocate;
    [GetArguments] is the JSON object of the call, a missing key reading as
    the nil interface; [ConfigurationView] returns a configuration object or
    an error, and [output.MarshalYaml] a text together with an error. *)
Variable GetTargets :
  ToolHandlerParams -> Context -> Heap -> (Slice * option errors.error) * Heap.
Variable GetDefaultTarget : ToolHandlerParams -> string.
Variable GetArguments : ToolHandlerParams -> gmap string Output.Value.
Variable KubeConfig : Type.
Variable ConfigurationView :
  ToolHandlerParams -> bool -> KubeConfig + errors.error.
Variable MarshalYaml : KubeConfig -> string * option errors.error.

(** The text [contextsList] builds once the list is known not to be empty
    (the body of the handler from [result := ...] to the usage hint). *)
Definition contextsReport (defaultContext : string) (contexts : list string)
  : string :=
  let nl := GoStrings.newline in
  let result :=
    "Available Kubernetes contexts (" +:+ pretty (length contexts)
      +:+ " total, default: " +:+ defaultContext +:+ "):" +:+ nl +:+ nl in
  let result := result +:+ "Format: [*] CONTEXT_NAME" +:+ nl in
  let result :=
    result +:+ " (" +:+ "* indicates the default context used in tools if context is not set)"
      +:+ nl +:+ nl in
  let result := result +:+ "Contexts:" +:+ nl +:+ "---------" +:+ nl in
  let result :=
    foldl (fun result context =>
             let marker :=
               if String.eqb context defaultContext then "*" else " " in
             result +:+ marker +:+ context +:+ nl)
          result contexts in
  let result := result +:+ "---------" +:+ nl +:+ nl in
  result +:+ "To use a specific context with any tool, set the 'context' parameter in the tool call arguments".

Definition contextsList : ToolHandlerFunc :=
  fun params h =>
    let '((contexts, err), h1) := GetTargets params (Context_ params) h in
    match err with
    | Some err =>
        Some ((Some (NewToolCallResult ""
                 (Some (errors.Errorf
                          ("failed to list contexts: " +:+ errors.Error err)))),
               None), h1)
    | None =>
        if Nat.eqb (len contexts) 0
        then Some ((Some (NewToolCallResult "No contexts found in kubeconfig"
                            None),
                    None), h1)
        else
          let defaultContext := GetDefaultTarget params in
          xs ← Memory.readSlice h1 contexts;
          Some ((Some (NewToolCallResult (contextsReport defaultContext xs)
                         None),
                 None), h1)
    end.

Definition configurationView : ToolHandlerFunc :=
  fun params h =>
    let minify :=
      match GetArguments params !! "minified" with
      | Some (Output.Boolean b) => b
      | _ => true
      end in
    match ConfigurationView params minify with
    | inr err =>
        Some ((Some (NewToolCallResult ""
                 (Some (errors.Errorf
                          ("failed to get configuration: " +:+ errors.Error err)))),
               None), h)
    | inl ret =>
        let '(configurationYaml, err) := MarshalYaml ret in
        let err :=
          match err with
          | Some err =>
              Some (errors.Errorf
                      ("failed to get configuration: " +:+ errors.Error err))
          | None => None
          end in
        Some ((Some (NewToolCallResult configurationYaml err), None), h)
    end.

Definition minifiedDescription : string :=
  "Return a minified version of the configuration. "
  +:+ "If set to true, keeps only the current-context and the relevant pieces of the configuration for that context. "
  +:+ "If set to false, all contexts, clusters, auth-infos, and users are returned in the configuration. "
  +:+ "(Optional, default true)".

(** The two descriptors of the toolset.  Their schemas, the parameter table
    of the second and the schema of its one parameter are allocated when the
    function runs. *)
Definition initConfiguration (h : Heap) : list ServerTool * Heap :=
  let '(contextsSchema, h) :=
    Memory.newSchema
      {| jsonschema.Type_ := "object"; jsonschema.Description := "";
         jsonschema.Properties := None |} h in
  let '(minified, h) :=
    Memory.newSchema
      {| jsonschema.Type_ := "boolean";
         jsonschema.Description := minifiedDescription;
         jsonschema.Properties := None |} h in
  let '(table, h) := Memory.newPropMap h in
  let h :=
    Memory.setPropmaps h (<[table := {[ "minified" := minified ]}]> (propmaps h)) in
  let '(viewSchema, h) :=
    Memory.newSchema
      {| jsonschema.Type_ := "object"; jsonschema.Description := "";
         jsonschema.Properties := Some table |} h in
  ([ {| Tool_ :=
          {| Name := "contexts_list";
             Description := "List all available contexts from the kubeconfig file. Shows context names for all available contexts";
             Annotations :=
               {| Title := "Contexts: List";
                  ReadOnlyHint := Some true;
                  DestructiveHint := Some false;
                  IdempotentHint := Some true;
                  OpenWorldHint := Some false |};
             InputSchema := Some contextsSchema |};
        Handler := Some contextsList;
        ClusterAware := None;
        TargetListProvider := None |};
     {| Tool_ :=
          {| Name := "configuration_view";
             Description := "Get the current Kubernetes configuration content as a kubeconfig YAML";
             Annotations :=
               {| Title := "Configuration: View";
                  ReadOnlyHint := Some true;
                  DestructiveHint := Some false;
                  IdempotentHint := Some false;
                  OpenWorldHint := Some true |};
             InputSchema := Some viewSchema |};
        Handler := Some configurationView;
        ClusterAware := None;
        TargetListProvider := None |} ],
   h).

End Handlers.
End config.

(** * Properties *)

(** ** Laws of the ordered-mapping operations *)

Module OrderedMapFacts.
Import OrderedMap.
Section Laws.
Context {A : Type}.
Implicit Types (m : list (string * A)) (k : string).

Lemma get_remove_eq k m : get k (remove k m) = None.
Proof.
  induction m as [|[k' x] r IH]; simpl; [reflexivity|].
  destruct (String.eqb_spec k k') as [->|Hne]; simpl; [exact IH|].
  destruct (String.eqb_spec k k'); [contradiction|exact IH].
Qed.

Lemma get_remove_ne k k' m : k <> k' -> get k' (remove k m) = get k' m.
Proof.
  intros Hne. induction m as [|[k0 x] r IH]; simpl; [reflexivity|].
  destruct (String.eqb_spec k k0) as [->|Hk]; simpl.
  - destruct (String.eqb_spec k' k0); [congruence|exact IH].
  - rewrite IH. reflexivity.
Qed.

Lemma remove_absent k m : get k m = None -> remove k m = m.
Proof.
  induction m as [|[k' x] r IH]; simpl; [reflexivity|].
  destruct (String.eqb_spec k k'); [discriminate|].
  intros H. rewrite (IH H). reflexivity.
Qed.

Lemma remove_idem k m : remove k (remove k m) = remove k m.
Proof. apply remove_absent, get_remove_eq. Qed.

Lemma get_set_eq k v m : get k (set k v m) = Some v.
Proof.
  induction m as [|[k' x] r IH]; simpl.
  - rewrite String.eqb_refl. reflexivity.
  - destruct (String.eqb_spec k k') as [->|Hne]; simpl.
    + rewrite String.eqb_refl. reflexivity.
    + destruct (String.eqb_spec k k'); [contradiction|exact IH].
Qed.

Lemma get_set_ne k k' v m : k <> k' -> get k' (set k v m) = get k' m.
Proof.
  intros Hne. induction m as [|[k0 x] r IH]; simpl.
  - destruct (String.eqb_spec k' k); [congruence|reflexivity].
  - destruct (String.eqb_spec k k0) as [->|Hk]; simpl.
    + destruct (String.eqb_spec k' k0); [congruence|reflexivity].
    + rewrite IH. reflexivity.
Qed.

Lemma set_present k v m : get k m = Some v -> set k v m = m.
Proof.
  induction m as [|[k' x] r IH]; simpl; [discriminate|].
  destruct (String.eqb_spec k k') as [->|Hne].
  - intros [= ->]. reflexivity.
  - intros H. rewrite (IH H). reflexivity.
Qed.

Lemma set_set k v w m : set k v (set k w m) = set k v m.
Proof.
  induction m as [|[k' x] r IH]; simpl.
  - rewrite String.eqb_refl. reflexivity.
  - destruct (String.eqb_spec k k') as [->|Hne]; simpl.
    + rewrite String.eqb_refl. reflexivity.
    + destruct (String.eqb_spec k k'); [contradiction|].
      rewrite IH. reflexivity.
Qed.

Lemma keys_set_present k v m : get k m <> None -> keys (set k v m) = keys m.
Proof.
  unfold keys. induction m as [|[k' x] r IH]; simpl; [congruence|].
  destruct (String.eqb_spec k k') as [->|Hne]; simpl; [reflexivity|].
  intros H. rewrite (IH H). reflexivity.
Qed.

Lemma get_update_eq k f m : get k (update k f m) = option_map f (get k m).
Proof.
  induction m as [|[k' x] r IH]; simpl; [reflexivity|].
  destruct (String.eqb_spec k k') as [->|Hne]; simpl.
  - rewrite String.eqb_refl. reflexivity.
  - destruct (String.eqb_spec k k'); [contradiction|exact IH].
Qed.

Lemma get_update_ne k k' f m : k <> k' -> get k' (update k f m) = get k' m.
Proof.
  intros Hne. induction m as [|[k0 x] r IH]; simpl; [reflexivity|].
  destruct (String.eqb_spec k k0) as [->|Hk]; simpl.
  - destruct (String.eqb_spec k' k0); [congruence|reflexivity].
  - rewrite IH. reflexivity.
Qed.

Lemma keys_update k f m : keys (update k f m) = keys m.
Proof.
  unfold keys. induction m as [|[k' x] r IH]; simpl; [reflexivity|].
  destruct (String.eqb_spec k k'); simpl; [reflexivity|].
  rewrite IH. reflexivity.
Qed.

Lemma update_set_comm k k' f v m :
  k <> k' -> update k f (set k' v m) = set k' v (update k f m).
Proof.
  intros Hne. induction m as [|[k0 x] r IH]; simpl.
  - destruct (String.eqb_spec k k'); [contradiction|reflexivity].
  - destruct (String.eqb_spec k' k0) as [->|Hk']; simpl.
    + destruct (String.eqb_spec k k0); [contradiction|]. simpl.
      rewrite String.eqb_refl. reflexivity.
    + destruct (String.eqb_spec k k0) as [->|Hk]; simpl.
      * destruct (String.eqb_spec k' k0); [contradiction|reflexivity].
      * destruct (String.eqb_spec k' k0); [contradiction|].
        rewrite IH. reflexivity.
Qed.

(** Updating twice is updating with the composition; it is enough that the
    second function fixes the image of the entry actually stored. *)
Lemma update_fixed k f m :
  (forall x, get k m = Some x -> f (f x) = f x) ->
  update k f (update k f m) = update k f m.
Proof.
  induction m as [|[k' x] r IH]; simpl; [reflexivity|].
  destruct (String.eqb_spec k k') as [->|Hne]; simpl; intros H.
  - rewrite String.eqb_refl. rewrite (H x eq_refl). reflexivity.
  - destruct (String.eqb_spec k k'); [contradiction|].
    rewrite (IH H). reflexivity.
Qed.

Lemma get_In k x m : get k m = Some x -> In (k, x) m.
Proof.
  induction m as [|[k' y] r IH]; simpl; [discriminate|].
  destruct (String.eqb_spec k k') as [->|Hne].
  - intros [= ->]. left. reflexivity.
  - intros H. right. exact (IH H).
Qed.
End Laws.
End OrderedMapFacts.

(** ** pkg/output: the normaliser *)

Module OutputProps.
Import OrderedMap OrderedMapFacts Output.

(** Induction over result trees, with the hypothesis available for every
    element of a sequence and every value of a mapping. *)
Lemma Value_nested_ind (P : Value -> Prop) :
  P Null ->
  (forall b, P (Boolean b)) ->
  (forall n, P (Number n)) ->
  (forall s, P (Str s)) ->
  (forall l, Forall P l -> P (Sequence l)) ->
  (forall m, Forall (fun kv => P (snd kv)) m -> P (Mapping m)) ->
  forall v, P v.
Proof.
  intros HNull HBool HNum HStr HSeq HMap.
  fix IH 1. intros [ | b | n | s | l | m ].
  - exact HNull.
  - apply HBool.
  - apply HNum.
  - apply HStr.
  - apply HSeq. induction l as [|x l IHl]; constructor; [apply IH | exact IHl].
  - apply HMap. induction m as [|[k x] m IHm]; constructor;
      [apply IH | exact IHm].
Qed.

Lemma Forall_get (P : Value -> Prop) k x (m : list (string * Value)) :
  Forall (fun kv => P (snd kv)) m -> get k m = Some x -> P x.
Proof.
  induction 1 as [|[k' y] r Hy _ IH]; simpl; [discriminate|].
  destruct (String.eqb_spec k k'); [|exact IH].
  intros [= <-]. exact Hy.
Qed.

Lemma keys_distinct :
  metadataKey <> itemsKey /\ managedFieldsKey <> annotationsKey /\
  itemsKey <> metadataKey /\ annotationsKey <> managedFieldsKey.
Proof. repeat split; discriminate. Qed.

(** *** Pruning of one metadata mapping *)

Lemma pruneMetadata_managedFields md :
  get managedFieldsKey (pruneMetadata md) = None.
Proof.
  unfold pruneMetadata.
  assert (Hmf : get managedFieldsKey (remove managedFieldsKey md) = None)
    by apply get_remove_eq.
  destruct (get annotationsKey (remove managedFieldsKey md))
    as [[ | | | | | a]|]; try exact Hmf.
  destruct (remove lastAppliedKey a) as [|e a'].
  - rewrite get_remove_ne by discriminate. exact Hmf.
  - rewrite get_set_ne by discriminate. exact Hmf.
Qed.

Lemma pruneMetadata_other md k :
  k <> managedFieldsKey -> k <> annotationsKey ->
  get k (pruneMetadata md) = get k md.
Proof.
  intros Hmf Hann. unfold pruneMetadata.
  assert (H1 : get k (remove managedFieldsKey md) = get k md)
    by (apply get_remove_ne; congruence).
  destruct (get annotationsKey (remove managedFieldsKey md))
    as [[ | | | | | a]|]; try exact H1.
  destruct (remove lastAppliedKey a) as [|e a'].
  - rewrite get_remove_ne by congruence. exact H1.
  - rewrite get_set_ne by congruence. exact H1.
Qed.

Lemma pruneMetadata_annotations md :
  get annotationsKey (pruneMetadata md) =
  match get annotationsKey md with
  | Some (Mapping a) =>
      match remove lastAppliedKey a with
      | [] => None
      | a' => Some (Mapping a')
      end
  | other => other
  end.
Proof.
  unfold pruneMetadata.
  rewrite (get_remove_ne managedFieldsKey annotationsKey md) by discriminate.
  destruct (get annotationsKey md) as [[ | | | | | a]|] eqn:Hann;
    try (rewrite get_remove_ne by discriminate; exact Hann).
  destruct (remove lastAppliedKey a) as [|e a'].
  - apply get_remove_eq.
  - apply get_set_eq.
Qed.

Lemma pruneMetadata_idem md :
  pruneMetadata (pruneMetadata md) = pruneMetadata md.
Proof.
  assert (Hmf := pruneMetadata_managedFields md).
  assert (Hann := pruneMetadata_annotations md).
  unfold pruneMetadata at 1.
  rewrite (remove_absent _ _ Hmf).
  destruct (get annotationsKey (pruneMetadata md)) as [[ | | | | | a]|] eqn:Ha;
    try reflexivity.
  destruct (get annotationsKey md) as [[ | | | | | a0]|]; try discriminate.
  destruct (remove lastAppliedKey a0) as [|e a'] eqn:Hrm; [discriminate|].
  injection Hann as ->.
  rewrite <- Hrm, remove_idem, Hrm.
  apply set_present. exact Ha.
Qed.

(** *** The normaliser *)

Lemma Prune_Mapping m :
  exists m', PruneForStructuredOutput (Mapping m) = Mapping m'.
Proof.
  simpl. destruct (get metadataKey m) as [[ | | | | | md]|]; eauto.
Qed.

Lemma onMappings_fixed e :
  PruneForStructuredOutput (PruneForStructuredOutput e)
    = PruneForStructuredOutput e ->
  onMappings PruneForStructuredOutput (onMappings PruneForStructuredOutput e)
    = onMappings PruneForStructuredOutput e.
Proof.
  destruct e as [ | | | | | m]; try reflexivity.
  intros He. unfold onMappings at 2 3.
  destruct (Prune_Mapping m) as [m' Hm']. rewrite Hm' in *. exact He.
Qed.

(** Examples from the test suite (TestSingleObject, TestList, TestNoOpCases). *)
Example removes_managedFields :
  PruneForStructuredOutput
    (Mapping [("apiVersion", Str "v1"); ("kind", Str "Pod");
              ("metadata", Mapping [("name", Str "test-pod");
                                    ("namespace", Str "default");
                                    ("managedFields",
                                     Sequence [Str "field-manager-data"])])])
  = Mapping [("apiVersion", Str "v1"); ("kind", Str "Pod");
             ("metadata", Mapping [("name", Str "test-pod");
                                   ("namespace", Str "default")])].
Proof. reflexivity. Qed.

Example removes_only_annotation :
  PruneForStructuredOutput
    (Mapping [("metadata",
               Mapping [("name", Str "test-pod");
                        ("annotations",
                         Mapping [(lastAppliedKey, Str "{}")])])])
  = Mapping [("metadata", Mapping [("name", Str "test-pod")])].
Proof. reflexivity. Qed.

Example keeps_other_annotations :
  PruneForStructuredOutput
    (Mapping [("metadata",
               Mapping [("annotations",
                         Mapping [(lastAppliedKey, Str "{}");
                                  ("app.kubernetes.io/name", Str "myapp")])])])
  = Mapping [("metadata",
              Mapping [("annotations",
                        Mapping [("app.kubernetes.io/name", Str "myapp")])])].
Proof. reflexivity. Qed.

Example handles_string : PruneForStructuredOutput (Str "a string") = Str "a string".
Proof. reflexivity. Qed.

(** C8. Normalising is idempotent: for every result tree [x],
    normalize (normalize x) = normalize x.  (The function is a total
    function of its argument, by its definition.) *)
Theorem PruneForStructuredOutput_idempotent (x : Value) :
  PruneForStructuredOutput (PruneForStructuredOutput x)
    = PruneForStructuredOutput x.
Proof.
  induction x as [ | b | n | s | l IH | m IH ] using Value_nested_ind;
    try reflexivity.
  - (* a sequence: element-wise *)
    simpl. f_equal. rewrite map_map.
    induction IH as [|e l He _ IHl]; simpl; [reflexivity|].
    rewrite (onMappings_fixed e He), IHl. reflexivity.
  - (* a mapping *)
    cbn [PruneForStructuredOutput].
    destruct (get metadataKey m) as [[ | | | | | md]|] eqn:Hmd;
      try (cbn [PruneForStructuredOutput]; rewrite Hmd; reflexivity).
    cbn [PruneForStructuredOutput].
    rewrite get_set_eq, pruneMetadata_idem.
    rewrite update_set_comm by discriminate.
    rewrite update_fixed, set_set; [reflexivity|].
    intros x Hx.
    pose proof (Forall_get
      (fun v => PruneForStructuredOutput (PruneForStructuredOutput v)
                = PruneForStructuredOutput v) _ _ _ IH Hx) as Px.
    simpl in Px.
    destruct x as [ | | | | its | ]; try reflexivity.
    simpl in Px. simpl. rewrite map_map in *. exact Px.
Qed.

(** C9. On Null, on a scalar (boolean, number, string) and on a mapping
    without a [metadata] entry the normaliser returns its argument. *)
Theorem PruneForStructuredOutput_noop (v : Value) :
  Observe.nonResourceShape v = true ->
  PruneForStructuredOutput v = v.
Proof.
  destruct v as [ | b | n | s | l | m ]; simpl; try reflexivity.
  - discriminate.
  - destruct (get metadataKey m); [discriminate|reflexivity].
Qed.

Lemma PruneForStructuredOutput_noop_witness :
  PruneForStructuredOutput (Mapping [("data", Str "no-metadata-here")])
    = Mapping [("data", Str "no-metadata-here")]
  /\ PruneForStructuredOutput Null = Null
  /\ PruneForStructuredOutput (Str "a string") = Str "a string".
Proof.
  split; [|split].
  - exact (PruneForStructuredOutput_noop
             (Mapping [("data", Str "no-metadata-here")]) eq_refl).
  - exact (PruneForStructuredOutput_noop Null eq_refl).
  - exact (PruneForStructuredOutput_noop (Str "a string") eq_refl).
Defined.

(** A list object, as in TestList: the outer mapping has a [metadata]
    mapping and an [items] sequence of resources. *)
Example prunes_items_in_a_list :
  PruneForStructuredOutput
    (Mapping [("kind", Str "PodList"); ("metadata", Mapping []);
              ("items",
               Sequence
                 [Mapping [("metadata",
                            Mapping [("name", Str "pod-1");
                                     ("managedFields", Sequence [Str "data"])])]])])
  = Mapping [("kind", Str "PodList"); ("metadata", Mapping []);
             ("items",
              Sequence [Mapping [("metadata", Mapping [("name", Str "pod-1")])]])].
Proof. reflexivity. Qed.

(** C3, as stated, fails: it is not the case that on every mapping with a
    [metadata] sub-mapping every field other than [metadata] is preserved
    exactly.  The [items] field of a list object is rewritten, each item
    being normalised in turn. *)
Lemma not_every_other_field_preserved :
  ~ (forall m md,
       get metadataKey m = Some (Mapping md) ->
       exists m',
         PruneForStructuredOutput (Mapping m) = Mapping m' /\
         forall k, k <> metadataKey -> get k m' = get k m).
Proof.
  intros H.
  destruct (H [("metadata", Mapping []);
               ("items",
                Sequence
                  [Mapping [("metadata",
                             Mapping [("managedFields", Sequence [])])]])]
              [] eq_refl) as (m' & Hm' & Hkeep).
  injection Hm' as <-.
  specialize (Hkeep itemsKey ltac:(discriminate)).
  discriminate Hkeep.
Qed.

(** C3, amended.  On a mapping with a [metadata] sub-mapping the normaliser
    returns a mapping with the same keys in the same order, in which
    - [metadata] has no [managedFields] entry, whatever that entry held;
    - when [metadata.annotations] is a mapping, exactly the last-applied key
      is removed from it, and [annotations] itself is removed when that
      leaves it empty; an [annotations] entry that is not a mapping is kept;
    - every other entry of [metadata] is preserved exactly;
    - every entry of the value other than [metadata] and [items] is
      preserved exactly; the elements of an [items] sequence are each
      normalised. *)
Theorem PruneForStructuredOutput_resource (m md : list (string * Value)) :
  get metadataKey m = Some (Mapping md) ->
  exists m' md',
    PruneForStructuredOutput (Mapping m) = Mapping m' /\
    get metadataKey m' = Some (Mapping md') /\
    get managedFieldsKey md' = None /\
    (forall a, get annotationsKey md = Some (Mapping a) ->
       let a' := remove lastAppliedKey a in
       get lastAppliedKey a' = None /\
       (forall k, k <> lastAppliedKey -> get k a' = get k a) /\
       get annotationsKey md' =
         match a' with [] => None | _ => Some (Mapping a') end) /\
    ((forall a, get annotationsKey md <> Some (Mapping a)) ->
       get annotationsKey md' = get annotationsKey md) /\
    (forall k, k <> managedFieldsKey -> k <> annotationsKey ->
       get k md' = get k md) /\
    (forall k, k <> metadataKey -> k <> itemsKey -> get k m' = get k m) /\
    get itemsKey m' =
      option_map (onSequence (map (onMappings PruneForStructuredOutput)))
        (get itemsKey m) /\
    keys m' = keys m.
Proof.
  intros Hmd. eexists _, (pruneMetadata md).
  split; [cbn [PruneForStructuredOutput]; rewrite Hmd; reflexivity|].
  split; [apply get_set_eq|].
  split; [apply pruneMetadata_managedFields|].
  split.
  { intros a Ha. cbv zeta. rewrite pruneMetadata_annotations, Ha.
    split; [apply get_remove_eq|].
    split; [intros k Hk; apply get_remove_ne; congruence|].
    destruct (remove lastAppliedKey a); reflexivity. }
  split.
  { intros Hnm. rewrite pruneMetadata_annotations.
    destruct (get annotationsKey md) as [[ | | | | | a]|]; try reflexivity.
    destruct (Hnm a eq_refl). }
  split; [intros k; apply pruneMetadata_other|].
  split.
  { intros k Hk1 Hk2. rewrite get_set_ne by congruence.
    apply get_update_ne. congruence. }
  split.
  { rewrite get_set_ne by discriminate. apply get_update_eq. }
  rewrite keys_set_present, keys_update; [reflexivity|].
  rewrite get_update_ne by discriminate. rewrite Hmd. discriminate.
Qed.

Lemma PruneForStructuredOutput_resource_witness :
  exists m' md',
    PruneForStructuredOutput
      (Mapping [("kind", Str "Pod");
                ("metadata",
                 Mapping [("name", Str "test-pod");
                          ("managedFields", Sequence [Str "x"])])])
      = Mapping m' /\
    get metadataKey m' = Some (Mapping md') /\
    get managedFieldsKey md' = None /\
    get "name" md' = Some (Str "test-pod") /\
    get "kind" m' = Some (Str "Pod").
Proof.
  destruct (PruneForStructuredOutput_resource
              [("kind", Str "Pod");
               ("metadata",
                Mapping [("name", Str "test-pod");
                         ("managedFields", Sequence [Str "x"])])]
              [("name", Str "test-pod"); ("managedFields", Sequence [Str "x"])]
              eq_refl)
    as (m' & md' & Hp & Hmeta & Hmf & _ & _ & Hmd & Hm & _).
  exists m', md'.
  split; [exact Hp|]. split; [exact Hmeta|]. split; [exact Hmf|].
  split.
  - rewrite Hmd; [reflexivity | discriminate | discriminate].
  - rewrite Hm; [reflexivity | discriminate | discriminate].
Defined.

End OutputProps.

(** ** Strings *)

Module GoStringsFacts.
Import GoStrings.

Lemma app_cons c (a b : string) : String c a +:+ b = String c (a +:+ b).
Proof. reflexivity. Qed.




Lemma prefix_app (a b : string) : String.prefix a (a +:+ b) = true.
Proof.
  induction a as [|c a IH]; [destruct b; reflexivity|].
  rewrite app_cons. simpl. destruct (ascii_dec c c); [exact IH|contradiction].
Qed.

Lemma Contains_unfold (s substr : string) :
  Contains s substr =
  String.prefix substr s ||
  match s with
  | EmptyString => false
  | String _ s' => Contains s' substr
  end.
Proof. destruct s; reflexivity. Qed.

Lemma Contains_prefix (a b : string) : Contains (a +:+ b) a = true.
Proof. rewrite Contains_unfold, prefix_app. reflexivity. Qed.

Lemma Contains_app_l (a s substr : string) :
  Contains s substr = true -> Contains (a +:+ s) substr = true.
Proof.
  intros H. induction a as [|c a IH]; [exact H|].
  rewrite app_cons, Contains_unfold, IH. apply orb_true_r.
Qed.

(** [strings.Contains] finds every occurrence: a string of the form
    [a ++ substr ++ b] contains [substr]. *)
Lemma Contains_intro (a substr b : string) :
  Contains (a +:+ substr +:+ b) substr = true.
Proof. apply Contains_app_l, Contains_prefix. Qed.

Lemma Contains_self_suffix (a s : string) : Contains (a +:+ s) s = true.
Proof.
  apply Contains_app_l. rewrite Contains_unfold.
  replace s with (s +:+ "") at 2.
  - rewrite prefix_app. reflexivity.
  - induction s as [|c s IH]; [reflexivity|]. rewrite app_cons, IH. reflexivity.
Qed.

Lemma prefix_split (a s : string) :
  String.prefix a s = true -> exists b, s = a +:+ b.
Proof.
  revert s. induction a as [|x a IH]; intros s H.
  - exists s. reflexivity.
  - destruct s as [|y s]; [discriminate H|].
    simpl in H. destruct (ascii_dec x y) as [->|]; [|discriminate H].
    destruct (IH s H) as [b ->]. exists b. reflexivity.
Qed.

(** [strings.Contains] finds nothing else: a string that contains [substr]
    has the form [a ++ substr ++ b]. *)
Lemma Contains_split (s substr : string) :
  Contains s substr = true -> exists a b, s = a +:+ substr +:+ b.
Proof.
  induction s as [|c s IH]; rewrite Contains_unfold; intros H.
  - rewrite orb_false_r in H. destruct (prefix_split _ _ H) as [b Hb].
    exists "", b. exact Hb.
  - apply orb_true_iff in H. destruct H as [H|H].
    + destruct (prefix_split _ _ H) as [b Hb]. exists "", b. exact Hb.
    + destruct (IH H) as (a & b & ->). exists (String c a), b. reflexivity.
Qed.

Lemma Contains_spec (s substr : string) :
  Contains s substr = true <-> exists a b, s = a +:+ substr +:+ b.
Proof.
  split; [apply Contains_split|].
  intros (a & b & ->). apply Contains_intro.
Qed.

End GoStringsFacts.

(** ** pkg/mcp: the filter *)

Module FilterProps.
Import api Mcp Observe.

(** Examples from TestShouldIncludeTargetListTool. *)
Example legacy_for_context other :
  ShouldIncludeTargetListTool other "context" true
    (flagged "configuration_contexts_list") = true.
Proof. reflexivity. Qed.

Example legacy_for_other_name other :
  ShouldIncludeTargetListTool other "not_context" true
    (flagged "configuration_contexts_list") = false.
Proof. reflexivity. Qed.

Example mutated_for_context other :
  ShouldIncludeTargetListTool other "context" true (flagged "context_list")
    = false.
Proof. reflexivity. Qed.

Example mutated_for_cluster other :
  ShouldIncludeTargetListTool other "cluster" true (flagged "cluster_list")
    = true.
Proof. reflexivity. Qed.

Example single_cluster other :
  ShouldIncludeTargetListTool other "any" false (flagged "test") = false.
Proof. reflexivity. Qed.





End FilterProps.

(** ** pkg/mcp: the elicitation bridge *)

Module ElicitProps.
Import api Mcp Observe.

Lemma sentinel_is_itself :
  errors.Is ErrElicitationNotSupported "ErrElicitationNotSupported" = true.
Proof. reflexivity. Qed.

(** The two revisions agree whenever the session does not report the
    missing capability: without a session, on a result, and on any other
    error. *)
Lemma Elicit_revisions_agree ctx message requestedSchema :
  reportsNoElicitation (sessionAnswer ctx message requestedSchema) = false ->
  Elicit ctx message requestedSchema
    = ElicitEarlier ctx message requestedSchema.
Proof.
  unfold sessionAnswer, liveSession, Elicit, ElicitEarlier.
  destruct (MCPSessionContextKey ctx) as [ | | [session|]]; try reflexivity.
  simpl. destruct (sdk.Elicit session _) as [r|cause]; [reflexivity|].
  simpl. intros ->. reflexivity.
Qed.

(** C1, as stated, fails.  The claim has the sentinel returned exactly when
    the client lacks the elicitation capability.  A client that has the
    capability, and whose handler turns a request down with the text "this
    form does not support elicitation of secrets", gets the sentinel too:
    [Elicit] looks for the phrase "does not support elicitation" in the
    text of the session's error, not at the client. *)
Lemma sentinel_for_a_capable_client :
  ~ (forall relayed handler message requestedSchema e,
       snd (Elicit (Client.contextOf relayed handler) message requestedSchema)
         = Some e ->
       (errors.Is e "ErrElicitationNotSupported" = true <-> handler = None)).
Proof.
  intros Hclaim.
  destruct (Hclaim "" (Some Client.refusingForm) "Please confirm" None _ eq_refl)
    as [Hlacks _].
  specialize (Hlacks eq_refl). discriminate Hlacks.
Qed.

(** C1, amended.  The error [Elicit] returns
    - wraps the sentinel [ErrElicitationNotSupported] (so that [errors.Is]
      finds it), with the session's own text as detail, when the session
      fails with an error whose text contains the phrase "does not support
      elicitation", as the report of a client that declared no elicitation
      capability does;
    - is the plain error "no MCP session found in context", which does not
      match the sentinel, when the context carries no live session;
    - matches the sentinel exactly when the text of the session's error
      contains that phrase, whatever the client's capabilities.
    The session's own errors are those of the SDK, which does not know this
    package's sentinel. *)
Theorem Elicit_sentinel_by_text (ctx : Context) (message : string)
    (requestedSchema : option loc) :
  let answer := sessionAnswer ctx message requestedSchema in
  let result := fst (Elicit ctx message requestedSchema) in
  let err := snd (Elicit ctx message requestedSchema) in
  foreignAnswer answer = true ->
  (forall cause before after,
     answer = Some (inr cause) ->
     errors.Error cause = before +:+ "does not support elicitation" +:+ after ->
     result = None /\
     exists e,
       err = Some e /\
       errors.Is e "ErrElicitationNotSupported" = true /\
       errors.Unwrap e = Some ErrElicitationNotSupported /\
       errors.Error e =
         "client does not support elicitation: " +:+ errors.Error cause) /\
  (liveSession ctx = None ->
     result = None /\
     err = Some (errors.errorString "no MCP session found in context") /\
     forall e, err = Some e ->
       errors.Is e "ErrElicitationNotSupported" = false) /\
  (forall e, err = Some e ->
     (errors.Is e "ErrElicitationNotSupported" = true
      <-> exists cause before after,
            answer = Some (inr cause) /\
            errors.Error cause =
              before +:+ "does not support elicitation" +:+ after)).
Proof.
  cbv zeta. unfold sessionAnswer, liveSession, Elicit.
  destruct (MCPSessionContextKey ctx) as [ | | [session|]]; simpl.
  1,2,4: intros _; split; [discriminate|]; split;
    [ intros _; repeat split; intros e [= <-]; reflexivity
    | intros e [= <-]; split;
      [discriminate | intros (? & ? & ? & [=] & _)] ].
  destruct (sdk.Elicit session _) as [r|cause]; simpl.
  - intros _. split; [discriminate|]. split; [discriminate|]. discriminate.
  - intros Hforeign. apply negb_true_iff in Hforeign.
    destruct (GoStrings.Contains (errors.Error cause) _) eqn:Hc; simpl.
    + split; [|split; [discriminate|]].
      * intros cause' before after [= <-] _. split; [reflexivity|].
        eexists. repeat split; reflexivity.
      * intros e [= <-]. split; [intros _|reflexivity].
        apply GoStringsFacts.Contains_split in Hc.
        destruct Hc as (before & after & Hc). eauto.
    + split; [|split; [discriminate|]].
      * intros cause' before after [= <-] Htext.
        rewrite Htext, GoStringsFacts.Contains_intro in Hc. discriminate Hc.
      * intros e [= <-]. rewrite Hforeign. split; [discriminate|].
        intros (cause' & before & after & [= <-] & Htext).
        rewrite Htext, GoStringsFacts.Contains_intro in Hc. discriminate Hc.
Qed.

Lemma Elicit_sentinel_by_text_witness :
  foreignAnswer (sessionAnswer unsupportedClient "Please confirm" None) = true /\
  exists e,
    snd (Elicit unsupportedClient "Please confirm" None) = Some e /\
    errors.Is e "ErrElicitationNotSupported" = true.
Proof.
  split; [reflexivity|].
  destruct (Elicit_sentinel_by_text unsupportedClient "Please confirm" None
              eq_refl) as (Hreports & _ & _).
  destruct (Hreports (errors.errorString "client does not support elicitation")
              "client " "" eq_refl eq_refl)
    as (_ & e & He & HIs & _).
  exists e. split; [exact He | exact HIs].
Defined.

End ElicitProps.

(** ** pkg/mcp: mutators *)

Module MutatorProps.
Import api Mcp Observe.

(** Composition unfolds from the left. *)
Lemma ComposeMutators_cons (m : ToolMutator) ms d h :
  ComposeMutators (m :: ms) d h =
  '(d', h') ← m d h; ComposeMutators ms d' h'.
Proof.
  unfold ComposeMutators. simpl.
  destruct (m d h) as [[d' h']|]; simpl; [reflexivity|].
  induction ms as [|m' ms IH]; [reflexivity|exact IH].
Qed.

(** C7.  The composed mutator applies its constituents left to right, each
    on the output of the one before: compose(m1, m2)(d) = m2(m1(d)); the
    composition of no mutators is the identity. *)
Theorem ComposeMutators_threads (m1 m2 : ToolMutator) (d : ServerTool)
    (h : Heap) :
  ComposeMutators [m1; m2] d h = ('(d', h') ← m1 d h; m2 d' h') /\
  ComposeMutators [] d h = Some (d, h).
Proof.
  split; [|reflexivity].
  unfold ComposeMutators. simpl.
  destruct (m1 d h) as [[d' h']|]; reflexivity.
Qed.

(** C6.  When the descriptor is not cluster-aware, or the topology is
    single-target, [WithTargetParameter] returns the descriptor it was
    given, and writes nothing. *)
Theorem WithTargetParameter_unchanged (defaultCluster targetParameterName : string)
    (isMultiCluster : bool) (tool : ServerTool) (h : Heap) :
  IsClusterAware tool = false \/ isMultiCluster = false ->
  WithTargetParameter defaultCluster targetParameterName isMultiCluster tool h
    = Some (tool, h).
Proof.
  intros [H|H]; unfold WithTargetParameter; rewrite H;
    rewrite ?orb_true_r; reflexivity.
Qed.

Lemma WithTargetParameter_unchanged_witness :
  WithTargetParameter "default" "cluster" false
    (createTestToolWithNilSchema "cluster-aware-tool-single-cluster") emptyHeap
  = Some (createTestToolWithNilSchema "cluster-aware-tool-single-cluster",
          emptyHeap).
Proof.
  apply WithTargetParameter_unchanged. right. reflexivity.
Defined.

(** *** Allocation and closed heaps *)

Lemma fresh_unallocated {A} (m : gmap loc A) : m !! fresh (dom m) = None.
Proof. apply not_elem_of_dom, is_fresh. Qed.

Lemma allocated_not_fresh {A} (m : gmap loc A) l :
  is_Some (m !! l) -> l <> fresh (dom m).
Proof.
  intros [x Hx] ->. rewrite fresh_unallocated in Hx. discriminate.
Qed.

Lemma closedHeap_store_schema h l s :
  closedHeap h ->
  match jsonschema.Properties s with
  | None => True
  | Some mp => is_Some (propmaps h !! mp)
  end ->
  closedHeap (Memory.setSchemas h (<[l := s]> (schemas h))).
Proof.
  intros [Hs Hm] Hprops. split; simpl.
  - apply map_Forall_insert_2; assumption.
  - intros ml pm Hpm k l' Hl'. apply lookup_insert_is_Some'.
    right. exact (Hm ml pm Hpm k l' Hl').
Qed.

Lemma closedHeap_store_propmap h ml (pm : gmap string loc) :
  closedHeap h ->
  map_Forall (fun _ l => is_Some (schemas h !! l)) pm ->
  closedHeap (Memory.setPropmaps h (<[ml := pm]> (propmaps h))).
Proof.
  intros [Hs Hm] Hpm. split; simpl.
  - intros l s Hl. specialize (Hs l s Hl). simpl in Hs.
    destruct (jsonschema.Properties s) as [mp|]; [|exact I].
    apply lookup_insert_is_Some'. right. exact Hs.
  - apply map_Forall_insert_2; assumption.
Qed.

Lemma closedHeap_properties h l s mp :
  closedHeap h -> schemas h !! l = Some s ->
  jsonschema.Properties s = Some mp -> is_Some (propmaps h !! mp).
Proof.
  intros [Hs _] Hl Hp. specialize (Hs l s Hl). simpl in Hs.
  rewrite Hp in Hs. exact Hs.
Qed.

Lemma closedHeap_entries h mp (pm : gmap string loc) :
  closedHeap h -> propmaps h !! mp = Some pm ->
  map_Forall (fun _ l => is_Some (schemas h !! l)) pm.
Proof. intros [_ Hm] Hmp. exact (Hm mp pm Hmp). Qed.

(** *** [WithTargetParameter] under multi-target topology, path by path *)

Lemma setInputSchema_same (tool : ServerTool) sp :
  InputSchema (Tool_ tool) = Some sp ->
  setTool tool (setInputSchema (Tool_ tool) (Some sp)) = tool.
Proof.
  destruct tool as [[name desc ann schema] handler ca tlp]. simpl.
  intros ->. reflexivity.
Qed.

(** The schema is there and has a parameter table: one schema object is
    allocated for the parameter and bound in the table. *)
Lemma WithTargetParameter_table d p tool h sp s mp (pm : gmap string loc) :
  IsClusterAware tool = true ->
  InputSchema (Tool_ tool) = Some sp ->
  schemas h !! sp = Some s ->
  jsonschema.Properties s = Some mp ->
  propmaps h !! mp = Some pm ->
  WithTargetParameter d p true tool h =
  Some (tool,
        {| schemas := <[fresh (dom (schemas h)) := baseSchema d p]>
                        (schemas h);
           propmaps := <[mp := <[p := fresh (dom (schemas h))]> pm]>
                         (propmaps h);
           arrays := arrays h |}).
Proof.
  intros Hca Hsp Hs Hp Hmp. unfold WithTargetParameter.
  rewrite Hca, Hsp. cbn [negb orb]. rewrite Hs. cbn [mbind option_bind].
  rewrite Hp. unfold createTargetProperty, Memory.newSchema.
  cbn [Memory.setSchemas propmaps].
  rewrite Hmp. cbn [mbind option_bind].
  rewrite (setInputSchema_same tool sp Hsp). reflexivity.
Qed.

Lemma closedHeap_bind_parameter h mp (pm : gmap string loc) p s :
  closedHeap h ->
  propmaps h !! mp = Some pm ->
  jsonschema.Properties s = None ->
  closedHeap
    {| schemas := <[fresh (dom (schemas h)) := s]> (schemas h);
       propmaps := <[mp := <[p := fresh (dom (schemas h))]> pm]> (propmaps h);
       arrays := arrays h |}.
Proof.
  intros Hclosed Hmp Hs.
  refine (closedHeap_store_propmap
            (Memory.setSchemas h (<[fresh (dom (schemas h)) := s]> (schemas h)))
            mp (<[p := fresh (dom (schemas h))]> pm) _ _).
  - refine (closedHeap_store_schema h _ s Hclosed _). rewrite Hs. exact I.
  - simpl. apply map_Forall_insert_2.
    + rewrite lookup_insert_eq. eauto.
    + intros k l Hl. apply lookup_insert_is_Some'. right.
      exact (closedHeap_entries h mp pm Hclosed Hmp k l Hl).
Qed.

(** The schema is there but its parameter table is nil: a table is made and
    stored in the schema first. *)
Lemma WithTargetParameter_no_table d p tool h sp s :
  IsClusterAware tool = true ->
  InputSchema (Tool_ tool) = Some sp ->
  schemas h !! sp = Some s ->
  jsonschema.Properties s = None ->
  let mp := fresh (dom (propmaps h)) in
  let s' := {| jsonschema.Type_ := jsonschema.Type_ s;
               jsonschema.Description := jsonschema.Description s;
               jsonschema.Properties := Some mp |} in
  let h2 := {| schemas := <[sp := s']> (schemas h);
               propmaps := <[mp := ∅]> (propmaps h);
               arrays := arrays h |} in
  WithTargetParameter d p true tool h =
  WithTargetParameter d p true tool h2 /\
  schemas h2 !! sp = Some s' /\ propmaps h2 !! mp = Some ∅ /\
  (closedHeap h -> closedHeap h2).
Proof.
  intros Hca Hsp Hs Hp mp s' h2.
  assert (Hs2 : schemas h2 !! sp = Some s') by apply lookup_insert_eq.
  assert (Hm2 : propmaps h2 !! mp = Some ∅) by apply lookup_insert_eq.
  split; [|split; [exact Hs2|split; [exact Hm2|]]].
  - rewrite (WithTargetParameter_table d p tool h2 sp s' mp ∅ Hca Hsp Hs2
               eq_refl Hm2).
    unfold WithTargetParameter.
    rewrite Hca, Hsp. cbn [negb orb]. rewrite Hs. cbn [mbind option_bind].
    rewrite Hp. unfold createTargetProperty, Memory.newSchema, Memory.newPropMap.
    cbn [Memory.setSchemas Memory.setPropmaps propmaps schemas arrays].
    fold mp. rewrite lookup_insert_eq. cbn [mbind option_bind].
    rewrite (setInputSchema_same tool sp Hsp). reflexivity.
  - intros Hclosed.
    refine (closedHeap_store_schema
              (Memory.setPropmaps h (<[mp := ∅]> (propmaps h))) sp s' _ _).
    + refine (closedHeap_store_propmap h mp ∅ Hclosed _).
      apply map_Forall_empty.
    + simpl. rewrite lookup_insert_eq. eauto.
Qed.

(** The descriptor has no schema: an object schema is made first. *)
Lemma WithTargetParameter_no_schema d p tool h :
  IsClusterAware tool = true ->
  InputSchema (Tool_ tool) = None ->
  let sp := fresh (dom (schemas h)) in
  let object := {| jsonschema.Type_ := "object";
                   jsonschema.Description := "";
                   jsonschema.Properties := None |} in
  let tool1 := setTool tool (setInputSchema (Tool_ tool) (Some sp)) in
  let h1 := {| schemas := <[sp := object]> (schemas h);
               propmaps := propmaps h;
               arrays := arrays h |} in
  WithTargetParameter d p true tool h =
  WithTargetParameter d p true tool1 h1 /\
  schemas h1 !! sp = Some object /\
  (closedHeap h -> closedHeap h1).
Proof.
  intros Hca Hnone sp object tool1 h1.
  split; [|split].
  - unfold WithTargetParameter.
    assert (Hca1 : IsClusterAware tool1 = true) by exact Hca.
    rewrite Hca, Hca1, Hnone. reflexivity.
  - apply lookup_insert_eq.
  - intros Hclosed. refine (closedHeap_store_schema h sp object Hclosed _).
    exact I.
Qed.

(** *** Re-binding the parameter cannot be observed *)


(** *** What one application establishes *)

Lemma WithTargetParameter_table_facts d p tool h sp s mp (pm : gmap string loc) :
  IsClusterAware tool = true ->
  InputSchema (Tool_ tool) = Some sp ->
  schemas h !! sp = Some s ->
  jsonschema.Properties s = Some mp ->
  propmaps h !! mp = Some pm ->
  closedHeap h ->
  exists pp h',
    WithTargetParameter d p true tool h = Some (tool, h') /\
    schemas h' !! sp = Some s /\
    propmaps h' !! mp = Some (<[p := pp]> pm) /\
    schemas h' !! pp = Some (baseSchema d p) /\
    closedHeap h'.
Proof.
  intros Hca Hsp Hs Hp Hmp Hclosed.
  eexists _, _.
  split; [exact (WithTargetParameter_table d p tool h sp s mp pm
                   Hca Hsp Hs Hp Hmp)|].
  cbn [schemas propmaps].
  split.
  { rewrite lookup_insert_ne; [exact Hs|].
    intros Heq. symmetry in Heq. revert Heq.
    apply allocated_not_fresh. eauto. }
  split; [apply lookup_insert_eq|].
  split; [apply lookup_insert_eq|].
  apply closedHeap_bind_parameter; [exact Hclosed|exact Hmp|reflexivity].
Qed.

Lemma WithTargetParameter_binds d p tool h :
  IsClusterAware tool = true ->
  schemaAllocated h tool ->
  closedHeap h ->
  exists sp s mp (pm : gmap string loc) pp h',
    WithTargetParameter d p true tool h =
      Some (setTool tool (setInputSchema (Tool_ tool) (Some sp)), h') /\
    schemas h' !! sp = Some s /\
    jsonschema.Type_ s = default "object" (inputSchemaType h tool) /\
    jsonschema.Properties s = Some mp /\
    propmaps h' !! mp = Some pm /\
    pm !! p = Some pp /\
    schemas h' !! pp = Some (baseSchema d p) /\
    closedHeap h'.
Proof.
  intros Hca Halloc Hclosed. unfold schemaAllocated in Halloc.
  unfold inputSchemaType.
  destruct (InputSchema (Tool_ tool)) as [sp|] eqn:Hsp.
  - destruct Halloc as [s Hs]. cbn [mbind option_bind]. rewrite Hs.
    cbn [mbind option_bind default].
    destruct (jsonschema.Properties s) as [mp|] eqn:Hp.
    + destruct (closedHeap_properties h sp s mp Hclosed Hs Hp) as [pm Hmp].
      destruct (WithTargetParameter_table_facts d p tool h sp s mp pm
                  Hca Hsp Hs Hp Hmp Hclosed)
        as (pp & h' & Hrun & Hs' & Hmp' & Hpp & Hclosed').
      exists sp, s, mp, (<[p := pp]> pm), pp, h'.
      rewrite (setInputSchema_same tool sp Hsp).
      (split; [exact Hrun|]); (split; [exact Hs'|]); (split; [reflexivity|]);
      (split; [first [exact Hp | reflexivity]|]); (split; [exact Hmp'|]);
      (split; [apply lookup_insert_eq|]); (split; [exact Hpp|exact Hclosed']).
    + destruct (WithTargetParameter_no_table d p tool h sp s Hca Hsp Hs Hp)
        as (Heq & Hs2 & Hm2 & Hclosed2).
      rewrite Heq.
      edestruct (WithTargetParameter_table_facts d p tool)
        as (pp & h' & Hrun & Hs' & Hmp' & Hpp & Hclosed');
        [exact Hca | exact Hsp | exact Hs2 | reflexivity | exact Hm2
        | exact (Hclosed2 Hclosed) | ].
      eexists sp, _, _, (<[p := pp]> ∅), pp, h'.
      rewrite (setInputSchema_same tool sp Hsp).
      (split; [exact Hrun|]); (split; [exact Hs'|]); (split; [reflexivity|]);
      (split; [first [exact Hp | reflexivity]|]); (split; [exact Hmp'|]);
      (split; [apply lookup_insert_eq|]); (split; [exact Hpp|exact Hclosed']).
  - cbn [mbind option_bind default].
    destruct (WithTargetParameter_no_schema d p tool h Hca Hsp)
      as (Heq & Hs1 & Hclosed1).
    rewrite Heq.
    set (sp := fresh (dom (schemas h))) in *.
    set (tool1 := setTool tool (setInputSchema (Tool_ tool) (Some sp))) in *.
    assert (Hca1 : IsClusterAware tool1 = true) by exact Hca.
    assert (Hsp1 : InputSchema (Tool_ tool1) = Some sp) by reflexivity.
    edestruct (WithTargetParameter_no_table d p tool1)
      as (Heq2 & Hs2 & Hm2 & Hclosed2);
      [exact Hca1 | exact Hsp1 | exact Hs1 | reflexivity | ].
    rewrite Heq2.
    edestruct (WithTargetParameter_table_facts d p tool1)
      as (pp & h' & Hrun & Hs' & Hmp' & Hpp & Hclosed');
      [exact Hca1 | exact Hsp1 | exact Hs2 | reflexivity | exact Hm2
      | exact (Hclosed2 (Hclosed1 Hclosed)) | ].
    eexists sp, _, _, (<[p := pp]> ∅), pp, h'.
    (split; [exact Hrun|]); (split; [exact Hs'|]); (split; [reflexivity|]);
    (split; [first [exact Hp | reflexivity]|]); (split; [exact Hmp'|]);
    (split; [apply lookup_insert_eq|]); (split; [exact Hpp|exact Hclosed']).
Qed.

(** *** The parameter mutator under multi-target topology *)




End MutatorProps.

(** ** Slices and sorting *)

Module MemoryFacts.
Import Memory GoStrings.

Lemma length_insertSorted x l : length (insertSorted x l) = S (length l).
Proof.
  induction l as [|y r IH]; simpl; [reflexivity|].
  destruct (String.leb x y); simpl; [reflexivity|]. rewrite IH. reflexivity.
Qed.

Lemma length_sortStrings l : length (sortStrings l) = length l.
Proof.
  unfold sortStrings. induction l as [|x l IH]; simpl; [reflexivity|].
  rewrite length_insertSorted, IH. reflexivity.
Qed.

Lemma insertSorted_perm x l : insertSorted x l ≡ₚ x :: l.
Proof.
  induction l as [|y r IH]; simpl; [reflexivity|].
  destruct (String.leb x y); [reflexivity|].
  rewrite IH. apply Permutation_swap.
Qed.

(** The modelled sort returns a permutation of its input ... *)
Lemma sortStrings_perm l : sortStrings l ≡ₚ l.
Proof.
  unfold sortStrings. induction l as [|x l IH]; simpl; [reflexivity|].
  rewrite insertSorted_perm, IH. reflexivity.
Qed.

Lemma insertSorted_sorted x l :
  Sorted String.le l -> Sorted String.le (insertSorted x l).
Proof.
  induction l as [|y r IH]; intros Hs; simpl.
  - repeat constructor.
  - destruct (String.leb x y) eqn:Hxy.
    + constructor; [exact Hs|]. constructor.
      unfold String.le. rewrite Hxy. exact I.
    + apply Sorted_inv in Hs as [Hr Hy].
      constructor; [exact (IH Hr)|].
      assert (Hyx : String.le y x).
      { destruct (String.leb_total x y) as [H|H]; [congruence|].
        unfold String.le. rewrite H. exact I. }
      destruct r as [|z r]; simpl; [constructor; exact Hyx|].
      destruct (String.leb x z); constructor; [exact Hyx|].
      inversion Hy; assumption.
Qed.

(** ... in ascending byte-wise order. *)
Lemma sortStrings_sorted l : Sorted String.le (sortStrings l).
Proof.
  unfold sortStrings. induction l as [|x l IH]; simpl; [constructor|].
  apply insertSorted_sorted, IH.
Qed.

(** A slice of positive length that can be read lies within an allocated
    array. *)
Lemma readSlice_inv h s xs :
  readSlice h s = Some xs -> len s <> 0 ->
  exists l a,
    base s = Some l /\ arrays h !! l = Some a /\
    off s + len s <= length a /\
    xs = take (len s) (drop (off s) a) /\ length xs = len s.
Proof.
  unfold readSlice. intros Hread Hlen.
  destruct (base s) as [l|].
  - destruct (arrays h !! l) as [a|] eqn:Ha; [|discriminate].
    cbn [mbind option_bind] in Hread.
    destruct (Nat.leb_spec (off s + len s) (length a)) as [Hle|Hgt];
      [|discriminate].
    injection Hread as <-. exists l, a.
    repeat split; try assumption.
    rewrite length_take, length_drop. lia.
  - destruct (Nat.eqb_spec (len s) 0); [contradiction|discriminate].
Qed.

(** Reading is unaffected by the allocation of a fresh array. *)
Lemma readSlice_alloc h s xs ys :
  readSlice h s = Some xs -> len s <> 0 ->
  readSlice (setArrays h (<[fresh (dom (arrays h)) := ys]> (arrays h))) s
    = Some xs.
Proof.
  intros Hread Hlen.
  destruct (readSlice_inv h s xs Hread Hlen) as (l & a & Hb & Ha & Hle & _).
  rewrite <- Hread. unfold readSlice. rewrite Hb. cbn [setArrays arrays].
  rewrite lookup_insert_ne; [reflexivity|].
  intros Heq. rewrite <- Heq in Ha.
  pose proof (is_fresh (dom (arrays h))) as Hfresh.
  apply not_elem_of_dom in Hfresh. congruence.
Qed.

(** Reading and overwriting a slice that covers its whole array. *)
Lemma readSlice_whole h l a n :
  arrays h !! l = Some a -> length a = n ->
  readSlice h {| base := Some l; off := 0; len := n |} = Some a.
Proof.
  intros Ha <-. unfold readSlice. cbn [base off len]. rewrite Ha.
  cbn [mbind option_bind]. rewrite Nat.leb_refl.
  rewrite drop_0, firstn_all. reflexivity.
Qed.

Lemma writeSlice_whole h l a ys n :
  arrays h !! l = Some a -> length a = n -> length ys = n ->
  writeSlice {| base := Some l; off := 0; len := n |} ys h
    = Some (setArrays h (<[l := ys]> (arrays h))).
Proof.
  intros Ha <- Hys. unfold writeSlice. cbn [base off len].
  rewrite Hys, Nat.eqb_refl. cbn [negb]. rewrite Ha.
  cbn [mbind option_bind Nat.add]. rewrite Nat.leb_refl.
  rewrite take_0, drop_all, app_nil_r. reflexivity.
Qed.

End MemoryFacts.

(** ** pkg/mcp: the target-list handler *)

Module HandlerProps.
Import api Mcp Observe Memory MemoryFacts.

Section Handler.
Variable ToUpper : string -> string.

(** The mutator installs the handler on the placeholder descriptor, and on
    no other. *)
Lemma WithTargetListTool_installs defaultTarget parameterName p tool h :
  Name (Tool_ tool) = TargetsListToolName ->
  exists tool',
    WithTargetListTool ToUpper defaultTarget parameterName p tool h
      = Some (tool', h) /\
    Name (Tool_ tool') = parameterName +:+ "_list" /\
    Handler tool' =
      Some (createTargetListHandler ToUpper p parameterName defaultTarget).
Proof.
  intros Hname. unfold WithTargetListTool. rewrite Hname.
  eexists. split; [reflexivity|]. split; reflexivity.
Qed.

Lemma WithTargetListTool_other defaultTarget parameterName p tool h :
  Name (Tool_ tool) <> TargetsListToolName ->
  WithTargetListTool ToUpper defaultTarget parameterName p tool h
    = Some (tool, h).
Proof.
  intros Hname. unfold WithTargetListTool.
  apply String.eqb_neq in Hname. rewrite Hname. reflexivity.
Qed.

(** C4.  When the provider fails to enumerate the targets, the handler that
    [WithTargetListTool] generates returns a call result and a nil error;
    the result's error text contains "failed to find any targets" and the
    text of the provider's error (which it wraps). *)
Theorem handler_provider_error (p : Provider)
    (defaultTarget parameterName : string) (tool : ServerTool)
    (params : ToolHandlerParams) (h0 h h1 : Heap)
    (targets : Slice) (cause : errors.error) :
  Name (Tool_ tool) = TargetsListToolName ->
  GetTargets p (Context_ params) h = ((targets, Some cause), h1) ->
  exists tool' handler callResult e,
    WithTargetListTool ToUpper defaultTarget parameterName p tool h0
      = Some (tool', h0) /\
    Handler tool' = Some handler /\
    handler params h = Some ((Some callResult, None), h1) /\
    Error callResult = Some e /\
    GoStrings.Contains (errors.Error e) "failed to find any targets" = true /\
    GoStrings.Contains (errors.Error e) (errors.Error cause) = true /\
    errors.Unwrap e = Some cause.
Proof.
  intros Hname Hget.
  destruct (WithTargetListTool_installs defaultTarget parameterName p tool h0
              Hname) as (tool' & Hrun & _ & Hhandler).
  eexists tool', _, _, _.
  split; [exact Hrun|]. split; [exact Hhandler|].
  unfold createTargetListHandler. rewrite Hget.
  split; [reflexivity|]. split; [reflexivity|].
  cbn [errors.Errorf_w errors.Error errors.Unwrap].
  split; [|split; [|reflexivity]].
  - change ("failed to find any targets: " +:+ errors.Error cause)
      with ("failed to find any targets" +:+ ": " +:+ errors.Error cause).
    apply GoStringsFacts.Contains_prefix.
  - apply GoStringsFacts.Contains_self_suffix.
Qed.

(** C10.  When the provider returns a non-empty list, the handler copies
    it into a freshly allocated array, sorts that copy and renders the
    report from it: when the handler is done the heap is the provider's heap
    plus one new array holding the sorted targets, and the provider's slice
    reads as it did, in the order the provider gave. *)
Theorem handler_sorts_a_copy (p : Provider)
    (defaultTarget parameterName : string) (tool : ServerTool)
    (params : ToolHandlerParams) (h0 h h1 : Heap)
    (targets : Slice) (xs : list string) :
  Name (Tool_ tool) = TargetsListToolName ->
  GetTargets p (Context_ params) h = ((targets, None), h1) ->
  len targets <> 0 ->
  readSlice h1 targets = Some xs ->
  exists tool' handler callResult h2 l,
    WithTargetListTool ToUpper defaultTarget parameterName p tool h0
      = Some (tool', h0) /\
    Handler tool' = Some handler /\
    handler params h = Some ((Some callResult, None), h2) /\
    arrays h1 !! l = None /\
    h2 = setArrays h1 (<[l := GoStrings.sortStrings xs]> (arrays h1)) /\
    readSlice h2 targets = Some xs /\
    Content callResult =
      targetListReport ToUpper parameterName defaultTarget
        (GoStrings.sortStrings xs) /\
    Error callResult = None.
Proof.
  intros Hname Hget Hlen Hread.
  destruct (WithTargetListTool_installs defaultTarget parameterName p tool h0
              Hname) as (tool' & Hrun & _ & Hhandler).
  destruct (readSlice_inv h1 targets xs Hread Hlen)
    as (l0 & a & _ & _ & _ & _ & Hxs).
  set (l := fresh (dom (arrays h1))).
  set (n := len targets) in *.
  set (dst := {| base := Some l; off := 0; len := n |}).
  set (h2 := setArrays h1 (<[l := replicate n EmptyString]> (arrays h1))).
  set (h3 := setArrays h1 (<[l := xs]> (arrays h1))).
  set (h4 := setArrays h1 (<[l := GoStrings.sortStrings xs]> (arrays h1))).
  assert (Hcopy : copyStrings dst targets h2 = Some h3).
  { unfold copyStrings. cbn [len]. fold n. rewrite Nat.min_id.
    replace (slicePrefix targets n) with targets
      by (unfold n; destruct targets; reflexivity).
    change (slicePrefix dst n) with dst.
    unfold dst.
    assert (Hread2 : readSlice h2 targets = Some xs)
      by exact (readSlice_alloc h1 targets xs _ Hread Hlen).
    rewrite Hread2. cbn [mbind option_bind].
    rewrite (writeSlice_whole h2 l (replicate n EmptyString) xs n);
      [|apply lookup_insert_eq|apply length_replicate|exact Hxs].
    unfold h2, h3, setArrays. cbn [schemas propmaps arrays].
    rewrite insert_insert_eq. reflexivity. }
  assert (Hsort : sortStringsInPlace dst h3 = Some h4).
  { unfold sortStringsInPlace, dst.
    rewrite (readSlice_whole h3 l xs n); [|apply lookup_insert_eq|exact Hxs].
    cbn [mbind option_bind].
    rewrite (writeSlice_whole h3 l xs _ n);
      [|apply lookup_insert_eq|exact Hxs
       |rewrite length_sortStrings; exact Hxs].
    unfold h3, h4, setArrays. cbn [schemas propmaps arrays].
    rewrite insert_insert_eq. reflexivity. }
  assert (Hsorted : readSlice h4 dst = Some (GoStrings.sortStrings xs)).
  { apply readSlice_whole; [apply lookup_insert_eq|].
    rewrite length_sortStrings. exact Hxs. }
  eexists tool', _, _, h4, l.
  split; [exact Hrun|]. split; [exact Hhandler|].
  split.
  { unfold createTargetListHandler. rewrite Hget. fold n.
    destruct (Nat.eqb_spec n 0) as [Hn|_]; [contradiction|].
    unfold makeStrings. fold l. fold h2. fold dst.
    rewrite Hcopy. cbn [mbind option_bind].
    rewrite Hsort. cbn [mbind option_bind].
    rewrite Hsorted. cbn [mbind option_bind]. reflexivity. }
  split; [apply not_elem_of_dom, is_fresh|].
  split; [reflexivity|].
  split; [exact (readSlice_alloc h1 targets xs _ Hread Hlen)|].
  split; reflexivity.
Qed.

(** TestHandlerWithEmptyTargets: an empty list is answered in words. *)
Lemma handler_no_targets (p : Provider) (defaultTarget parameterName : string)
    (params : ToolHandlerParams) (h h1 : Heap) (targets : Slice) :
  GetTargets p (Context_ params) h = ((targets, None), h1) ->
  len targets = 0 ->
  createTargetListHandler ToUpper p parameterName defaultTarget params h
  = Some ((Some (NewToolCallResult
                   ("No " +:+ parameterName +:+ "s available") None),
           None), h1).
Proof.
  intros Hget Hlen. unfold createTargetListHandler.
  rewrite Hget, Hlen. reflexivity.
Qed.

End Handler.

Lemma handler_provider_error_witness :
  exists tool' handler callResult e,
    WithTargetListTool (fun s => s) "default" "cluster"
      (mockProvider nilSlice (Some (errors.Errorf "unauthorized")))
      (createTestToolWithNilSchema TargetsListToolName) emptyHeap
      = Some (tool', emptyHeap) /\
    Handler tool' = Some handler /\
    handler background emptyHeap = Some ((Some callResult, None), emptyHeap) /\
    Error callResult = Some e /\
    GoStrings.Contains (errors.Error e) "unauthorized" = true.
Proof.
  destruct (handler_provider_error (fun s => s)
              (mockProvider nilSlice (Some (errors.Errorf "unauthorized")))
              "default" "cluster"
              (createTestToolWithNilSchema TargetsListToolName)
              background emptyHeap emptyHeap emptyHeap nilSlice
              (errors.Errorf "unauthorized") eq_refl eq_refl)
    as (tool' & handler & callResult & e & Hrun & Hh & Hcall & He & _ & Hc & _).
  exists tool', handler, callResult, e.
  repeat split; assumption.
Defined.

Lemma handler_sorts_a_copy_witness :
  exists tool' handler callResult h2,
    WithTargetListTool (fun s => s) "default-cluster" "cluster"
      (mockProvider threeTargets None)
      (createTestToolWithNilSchema TargetsListToolName) emptyHeap
      = Some (tool', emptyHeap) /\
    Handler tool' = Some handler /\
    handler background threeTargetsHeap
      = Some ((Some callResult, None), h2) /\
    readSlice h2 threeTargets
      = Some ["cluster-2"; "cluster-3"; "cluster-1"] /\
    Content callResult =
      targetListReport (fun s => s) "cluster" "default-cluster"
        ["cluster-1"; "cluster-2"; "cluster-3"].
Proof.
  assert (Hread : readSlice threeTargetsHeap threeTargets
                  = Some ["cluster-2"; "cluster-3"; "cluster-1"])
    by (vm_compute; reflexivity).
  destruct (handler_sorts_a_copy (fun s => s)
              (mockProvider threeTargets None) "default-cluster" "cluster"
              (createTestToolWithNilSchema TargetsListToolName)
              background emptyHeap threeTargetsHeap threeTargetsHeap
              threeTargets ["cluster-2"; "cluster-3"; "cluster-1"]
              eq_refl eq_refl ltac:(discriminate) Hread)
    as (tool' & handler & callResult & h2 & l & Hrun & Hh & Hcall & _ & _
        & Hkept & Hcontent & _).
  exists tool', handler, callResult, h2.
  repeat split; assumption.
Defined.

End HandlerProps.

(** * Further properties of the code *)

(** ** The elicitation bridge *)

Module ElicitMore.
Import api Mcp Observe Fixtures.

(** A session's result is handed on field by field, and a session error
    that does not speak of the missing capability is returned as it is; in
    every case exactly one of result and error is set. *)
Theorem Elicit_passes_through (ctx : Context) (message : string)
    (requestedSchema : option loc) :
  let answer := sessionAnswer ctx message requestedSchema in
  (forall r, answer = Some (inl r) ->
     Elicit ctx message requestedSchema =
       (Some {| Action := sdk.Action r; ElicitContent := sdk.Content r |},
        None)) /\
  (forall e, answer = Some (inr e) ->
     GoStrings.Contains (errors.Error e) "does not support elicitation" = false ->
     Elicit ctx message requestedSchema = (None, Some e)) /\
  (fst (Elicit ctx message requestedSchema) = None
   <-> snd (Elicit ctx message requestedSchema) <> None).
Proof.
  cbv zeta. unfold sessionAnswer, liveSession, Elicit.
  destruct (MCPSessionContextKey ctx) as [ | | [session|]]; simpl.
  1,2,4: split; [discriminate|]; split; [discriminate|];
    split; [discriminate|reflexivity].
  destruct (sdk.Elicit session _) as [r|cause]; simpl.
  - split; [intros r' [= <-]; reflexivity|].
    split; [discriminate|]. split; [discriminate|]. intros H. destruct H.
    reflexivity.
  - split; [discriminate|]. split.
    + intros e [= <-] Hc. rewrite Hc. reflexivity.
    + destruct (GoStrings.Contains _ _); simpl;
        (split; [discriminate|reflexivity]).
Qed.

Lemma Elicit_revisions_agree_witness :
  Elicit timedOutClient "Please confirm" None
    = ElicitEarlier timedOutClient "Please confirm" None.
Proof.
  exact (ElicitProps.Elicit_revisions_agree timedOutClient "Please confirm"
           None eq_refl).
Defined.

End ElicitMore.

(** ** Composition of mutators *)

Module ComposeMore.
Import api Mcp Observe Fixtures.

(** Composition is by concatenation: composing two lists of mutators one
    after the other, or composing their two compositions, is composing the
    concatenated list. *)
Theorem ComposeMutators_app (ms1 ms2 : list ToolMutator) (d : ServerTool)
    (h : Heap) :
  ComposeMutators (ms1 ++ ms2) d h
    = ('(d', h') ← ComposeMutators ms1 d h; ComposeMutators ms2 d' h') /\
  ComposeMutators [ComposeMutators ms1; ComposeMutators ms2] d h
    = ComposeMutators (ms1 ++ ms2) d h.
Proof.
  assert (Happ : forall ms d h,
            ComposeMutators (ms ++ ms2) d h
            = ('(d', h') ← ComposeMutators ms d h; ComposeMutators ms2 d' h')).
  { clear. induction ms as [|m ms IH]; intros d h; [reflexivity|].
    change ((m :: ms) ++ ms2) with (m :: (ms ++ ms2)).
    rewrite !MutatorProps.ComposeMutators_cons.
    destruct (m d h) as [[d' h']|]; simpl; [apply IH|reflexivity]. }
  split; [apply Happ|].
  rewrite Happ. unfold ComposeMutators at 1. simpl.
  destruct (ComposeMutators ms1 d h) as [[d' h']|]; reflexivity.
Qed.

End ComposeMore.

(** ** The parameter mutator: what it writes and what it leaves *)

Module MutatorMore.
Import api Mcp Observe Fixtures MutatorProps.

(** The heap [WithTargetParameter] ends in, for a schema without a table
    and for a descriptor without a schema. *)
Lemma WithTargetParameter_no_table_result d p tool h sp s :
  IsClusterAware tool = true ->
  InputSchema (Tool_ tool) = Some sp ->
  schemas h !! sp = Some s ->
  jsonschema.Properties s = None ->
  let mp := fresh (dom (propmaps h)) in
  let schemas2 :=
    <[sp := {| jsonschema.Type_ := jsonschema.Type_ s;
               jsonschema.Description := jsonschema.Description s;
               jsonschema.Properties := Some mp |}]> (schemas h) in
  WithTargetParameter d p true tool h =
  Some (tool,
        {| schemas := <[fresh (dom schemas2) := baseSchema d p]> schemas2;
           propmaps := <[mp := <[p := fresh (dom schemas2)]> ∅]>
                         (<[mp := ∅]> (propmaps h));
           arrays := arrays h |}).
Proof.
  intros Hca Hsp Hs Hp mp schemas2.
  destruct (WithTargetParameter_no_table d p tool h sp s Hca Hsp Hs Hp)
    as (Heq & Hs2 & Hm2 & _).
  rewrite Heq.
  exact (WithTargetParameter_table d p tool _ sp _ mp ∅ Hca Hsp Hs2 eq_refl Hm2).
Qed.

Lemma WithTargetParameter_no_schema_result d p tool h :
  IsClusterAware tool = true ->
  InputSchema (Tool_ tool) = None ->
  let sp := fresh (dom (schemas h)) in
  let mp := fresh (dom (propmaps h)) in
  let schemas2 :=
    <[sp := {| jsonschema.Type_ := "object";
               jsonschema.Description := "";
               jsonschema.Properties := Some mp |}]>
      (<[sp := {| jsonschema.Type_ := "object";
                  jsonschema.Description := "";
                  jsonschema.Properties := None |}]> (schemas h)) in
  WithTargetParameter d p true tool h =
  Some (setTool tool (setInputSchema (Tool_ tool) (Some sp)),
        {| schemas := <[fresh (dom schemas2) := baseSchema d p]> schemas2;
           propmaps := <[mp := <[p := fresh (dom schemas2)]> ∅]>
                         (<[mp := ∅]> (propmaps h));
           arrays := arrays h |}).
Proof.
  intros Hca Hnone sp mp schemas2.
  destruct (WithTargetParameter_no_schema d p tool h Hca Hnone)
    as (Heq & Hs1 & _).
  rewrite Heq.
  exact (WithTargetParameter_no_table_result d p
           (setTool tool (setInputSchema (Tool_ tool) (Some sp))) _ sp _
           Hca eq_refl Hs1 eq_refl).
Qed.



Lemma existingPropertiesHeap_closed : closedHeap existingPropertiesHeap.
Proof.
  split; simpl.
  - apply map_Forall_insert_2.
    + simpl. rewrite lookup_singleton_eq. eauto.
    + apply map_Forall_singleton. exact I.
  - apply map_Forall_singleton, map_Forall_singleton.
    rewrite lookup_insert_ne by discriminate.
    rewrite lookup_singleton_eq. eauto.
Qed.

Lemma existingProperties_allocated :
  schemaAllocated existingPropertiesHeap
    (createTestToolWithExistingProperties "test-tool").
Proof. unfold schemaAllocated. simpl. rewrite lookup_insert_eq. eauto. Qed.


(** The parameter is added in place when the descriptor has a schema: the
    descriptor returned is the descriptor given, and reading the given
    descriptor's schema afterwards finds the parameter.  When it has none,
    the descriptor returned is a different one, pointing to a schema at a
    location that was unused. *)
Theorem WithTargetParameter_in_place (defaultTarget parameterName : string)
    (tool : ServerTool) (h : Heap) :
  IsClusterAware tool = true ->
  schemaAllocated h tool ->
  closedHeap h ->
  (forall sp, InputSchema (Tool_ tool) = Some sp ->
     exists h' s mp (pm : gmap string loc) pp,
       WithTargetParameter defaultTarget parameterName true tool h
         = Some (tool, h') /\
       schemas h' !! sp = Some s /\
       jsonschema.Properties s = Some mp /\
       propmaps h' !! mp = Some pm /\
       pm !! parameterName = Some pp /\
       schemas h' !! pp = Some (baseSchema defaultTarget parameterName)) /\
  (InputSchema (Tool_ tool) = None ->
     exists tool' h' sp,
       WithTargetParameter defaultTarget parameterName true tool h
         = Some (tool', h') /\
       InputSchema (Tool_ tool') = Some sp /\
       schemas h !! sp = None /\
       tool' <> tool).
Proof.
  intros Hca Halloc Hclosed. split.
  - intros sp Hsp. unfold schemaAllocated in Halloc. rewrite Hsp in Halloc.
    destruct Halloc as [s Hs].
    destruct (jsonschema.Properties s) as [mp|] eqn:Hp.
    + destruct (closedHeap_properties h sp s mp Hclosed Hs Hp) as [pm Hmp].
      destruct (WithTargetParameter_table_facts defaultTarget parameterName
                  tool h sp s mp pm Hca Hsp Hs Hp Hmp Hclosed)
        as (pp & h' & Hrun & Hs' & Hmp' & Hpp & _).
      exists h', s, mp, (<[parameterName := pp]> pm), pp.
      split; [exact Hrun|]. split; [exact Hs'|]. split; [exact Hp|].
      split; [exact Hmp'|]. split; [apply lookup_insert_eq|exact Hpp].
    + destruct (WithTargetParameter_no_table defaultTarget parameterName
                  tool h sp s Hca Hsp Hs Hp)
        as (Heq & Hs2 & Hm2 & Hclosed2).
      rewrite Heq.
      edestruct (WithTargetParameter_table_facts defaultTarget parameterName
                   tool)
        as (pp & h' & Hrun & Hs' & Hmp' & Hpp & _);
        [exact Hca | exact Hsp | exact Hs2 | reflexivity | exact Hm2
        | exact (Hclosed2 Hclosed) | ].
      eexists h', _, _, (<[parameterName := pp]> ∅), pp.
      split; [exact Hrun|]. split; [exact Hs'|]. split; [reflexivity|].
      split; [exact Hmp'|]. split; [apply lookup_insert_eq|exact Hpp].
  - intros Hnone.
    eexists _, _, (fresh (dom (schemas h))).
    split; [exact (WithTargetParameter_no_schema_result defaultTarget
                     parameterName tool h Hca Hnone)|].
    split; [reflexivity|]. split; [apply fresh_unallocated|].
    intros Heq. apply (f_equal (fun t => InputSchema (Tool_ t))) in Heq.
    simpl in Heq. congruence.
Qed.

Lemma WithTargetParameter_in_place_witness :
  exists h' s mp (pm : gmap string loc) pp,
    WithTargetParameter "default-cluster" "cluster" true
      (createTestToolWithExistingProperties "cluster-aware-tool")
      existingPropertiesHeap
      = Some (createTestToolWithExistingProperties "cluster-aware-tool", h') /\
    schemas h' !! 1%positive = Some s /\
    jsonschema.Properties s = Some mp /\
    propmaps h' !! mp = Some pm /\
    pm !! "cluster" = Some pp /\
    schemas h' !! pp = Some (baseSchema "default-cluster" "cluster").
Proof.
  destruct (WithTargetParameter_in_place "default-cluster" "cluster"
              (createTestToolWithExistingProperties "cluster-aware-tool")
              existingPropertiesHeap eq_refl existingProperties_allocated
              existingPropertiesHeap_closed) as [Hplace _].
  exact (Hplace 1%positive eq_refl).
Defined.

End MutatorMore.

(** ** The target-list mutator *)

Module TargetListMore.
Import api Mcp Observe Fixtures.

Section Mutator.
Variable ToUpper : string -> string.

(** Renaming the placeholder is idempotent: applied to its own result the
    mutator returns that result, whether the new name is again the
    placeholder's (the parameter name "targets") or not.  It never fails
    and never touches the heap. *)
Theorem WithTargetListTool_idempotent (defaultTarget parameterName : string)
    (p : Provider) (tool : ServerTool) (h : Heap) :
  exists tool',
    WithTargetListTool ToUpper defaultTarget parameterName p tool h
      = Some (tool', h) /\
    forall h',
      WithTargetListTool ToUpper defaultTarget parameterName p tool' h'
        = Some (tool', h').
Proof.
  unfold WithTargetListTool.
  destruct (String.eqb (Name (Tool_ tool)) TargetsListToolName) eqn:Hname;
    cbn [negb].
  - eexists. split; [reflexivity|]. intros h'. cbn [Tool_ setHandler setTool Name].
    destruct (String.eqb (parameterName +:+ "_list") TargetsListToolName);
      reflexivity.
  - exists tool. split; [reflexivity|]. intros h'. rewrite Hname. reflexivity.
Qed.

(** The two mutators of the pipeline commute: one rewrites the name, the
    texts and the handler, the other the schema, and neither reads what the
    other writes. *)
Theorem mutators_commute (defaultCluster targetParameterName : string)
    (isMultiCluster : bool) (defaultTarget parameterName : string)
    (p : Provider) (tool : ServerTool) (h : Heap) :
  ComposeMutators
    [WithTargetParameter defaultCluster targetParameterName isMultiCluster;
     WithTargetListTool ToUpper defaultTarget parameterName p] tool h
  = ComposeMutators
      [WithTargetListTool ToUpper defaultTarget parameterName p;
       WithTargetParameter defaultCluster targetParameterName isMultiCluster]
      tool h.
Proof.
  unfold ComposeMutators. cbn [foldl mbind option_bind].
  unfold WithTargetListTool at 2.
  destruct (String.eqb (Name (Tool_ tool)) TargetsListToolName) eqn:Hname;
    cbn [negb mbind option_bind].
  - unfold WithTargetParameter.
    change (IsClusterAware (setHandler _ _)) with (IsClusterAware tool).
    destruct (negb (IsClusterAware tool) || negb isMultiCluster).
    + cbn [mbind option_bind]. unfold WithTargetListTool. rewrite Hname.
      reflexivity.
    + cbn [Tool_ setHandler setTool InputSchema].
      destruct (InputSchema (Tool_ tool)) as [sp|].
      * destruct (schemas h !! sp) as [s|]; [|reflexivity].
        cbn [mbind option_bind].
        destruct (jsonschema.Properties s) as [mp|].
        -- unfold createTargetProperty, Memory.newSchema.
           cbn [Memory.setSchemas propmaps].
           destruct (propmaps h !! mp) as [pm|]; [|reflexivity].
           cbn [mbind option_bind]. unfold WithTargetListTool.
           cbn [Tool_ setTool Name setInputSchema]. rewrite Hname. reflexivity.
        -- unfold createTargetProperty, Memory.newSchema, Memory.newPropMap.
           cbn [Memory.setSchemas Memory.setPropmaps propmaps schemas].
           rewrite lookup_insert_eq.
           cbn [mbind option_bind]. unfold WithTargetListTool.
           cbn [Tool_ setTool Name setInputSchema]. rewrite Hname. reflexivity.
      * unfold createTargetProperty, Memory.newSchema, Memory.newPropMap.
        cbn [Memory.setSchemas Memory.setPropmaps propmaps schemas].
        rewrite lookup_insert_eq.
        cbn [mbind option_bind jsonschema.Properties Memory.setSchemas
               Memory.setPropmaps propmaps schemas].
        rewrite lookup_insert_eq.
        cbn [mbind option_bind]. unfold WithTargetListTool.
        cbn [Tool_ setTool Name setInputSchema]. rewrite Hname. reflexivity.
  - destruct (WithTargetParameter defaultCluster targetParameterName
                isMultiCluster tool h) as [[tool' h']|] eqn:Hrun;
      [|reflexivity].
    cbn [mbind option_bind].
    assert (Hsame : Name (Tool_ tool') = Name (Tool_ tool)).
    { revert Hrun. unfold WithTargetParameter.
      destruct (negb (IsClusterAware tool) || negb isMultiCluster);
        [intros [= <- _]; reflexivity|].
      destruct (match InputSchema (Tool_ tool) with
                | Some sp => _ | None => _ end) as [sp h1].
      destruct (schemas h1 !! sp) as [s|]; [|discriminate].
      cbn [mbind option_bind].
      destruct (match jsonschema.Properties s with
                | Some mp => _ | None => _ end) as [mp h2].
      destruct (createTargetProperty _ _ h2) as [pp h3].
      destruct (propmaps h3 !! mp) as [pm|]; [|discriminate].
      intros [= <- _]. reflexivity. }
    unfold WithTargetListTool. rewrite Hsame, Hname. reflexivity.
Qed.

End Mutator.
End TargetListMore.

(** ** Texts built line by line *)

Module ReportFacts.
Import GoStrings GoStringsFacts.

Lemma app_assoc (a b c : string) : (a +:+ b) +:+ c = a +:+ b +:+ c.
Proof.
  induction a as [|x a IH]; [reflexivity|].
  rewrite !app_cons, IH. reflexivity.
Qed.

Lemma app_nil_r (a : string) : a +:+ "" = a.
Proof.
  induction a as [|x a IH]; [reflexivity|]. rewrite app_cons, IH. reflexivity.
Qed.

Lemma prefix_app_r (substr s b : string) :
  String.prefix substr s = true -> String.prefix substr (s +:+ b) = true.
Proof.
  revert s. induction substr as [|x substr IH]; intros s;
    [intros _; destruct (s +:+ b); reflexivity|].
  destruct s as [|y s]; simpl; [discriminate|].
  destruct (ascii_dec x y); [apply IH|discriminate].
Qed.

Lemma Contains_app_r (s b substr : string) :
  Contains s substr = true -> Contains (s +:+ b) substr = true.
Proof.
  induction s as [|x s IH]; rewrite Contains_unfold.
  - rewrite orb_false_r. intros H.
    rewrite Contains_unfold, (prefix_app_r substr "" b H). reflexivity.
  - intros H. apply orb_true_iff in H as [H|H].
    + rewrite Contains_unfold, (prefix_app_r _ _ b H). reflexivity.
    + rewrite app_cons, Contains_unfold, (IH H). apply orb_true_r.
Qed.

(** Appending one line per element, left to right, gives the text before
    followed by the lines in order. *)
Lemma foldl_lines (line : string -> string) (init : string) (l : list string) :
  foldl (fun acc t => acc +:+ line t) init l
  = init +:+ foldr (fun t rest => line t +:+ rest) "" l.
Proof.
  revert init. induction l as [|t l IH]; intros init; simpl.
  - rewrite app_nil_r. reflexivity.
  - rewrite IH, app_assoc. reflexivity.
Qed.

Lemma lines_contain (line : string -> string) (l : list string) (t : string) :
  t ∈ l ->
  Contains (foldr (fun t rest => line t +:+ rest) "" l) (line t) = true.
Proof.
  induction 1 as [t l|t u l _ IH]; simpl.
  - apply Contains_prefix.
  - apply Contains_app_l, IH.
Qed.

Lemma sortStrings_unique (xs ys : list string) :
  xs ≡ₚ ys -> sortStrings xs = sortStrings ys.
Proof.
  intros Hperm.
  apply (Sorted_unique String.le);
    [apply MemoryFacts.sortStrings_sorted..|].
  rewrite !MemoryFacts.sortStrings_perm. exact Hperm.
Qed.

End ReportFacts.

(** ** The target-list handler, in all its cases *)

Module HandlerMore.
Import api Mcp Observe Fixtures Memory MemoryFacts.

Lemma readSlice_length h s xs : readSlice h s = Some xs -> length xs = len s.
Proof.
  unfold readSlice. destruct (base s) as [l|].
  - destruct (arrays h !! l) as [a|]; [|discriminate].
    cbn [mbind option_bind].
    destruct (Nat.leb_spec (off s + len s) (length a)); [|discriminate].
    intros [= <-]. rewrite length_take, length_drop. lia.
  - destruct (Nat.eqb_spec (len s) 0) as [->|]; [|discriminate].
    intros [= <-]. reflexivity.
Qed.

Section Handler.
Variable ToUpper : string -> string.

(** The run of the handler on a non-empty list, step by step. *)
Lemma createTargetListHandler_nonempty (p : Provider)
    (defaultTarget parameterName : string) (params : ToolHandlerParams)
    (h h1 : Heap) (targets : Slice) (xs : list string) :
  GetTargets p (Context_ params) h = ((targets, None), h1) ->
  len targets <> 0 ->
  readSlice h1 targets = Some xs ->
  createTargetListHandler ToUpper p parameterName defaultTarget params h
  = Some ((Some (NewToolCallResult
                   (targetListReport ToUpper parameterName defaultTarget
                      (GoStrings.sortStrings xs)) None),
           None),
          setArrays h1 (<[fresh (dom (arrays h1)) := GoStrings.sortStrings xs]>
                          (arrays h1))).
Proof.
  intros Hget Hlen Hread.
  pose proof (readSlice_length h1 targets xs Hread) as Hxs.
  set (l := fresh (dom (arrays h1))).
  set (n := len targets) in *.
  set (h2 := setArrays h1 (<[l := replicate n EmptyString]> (arrays h1))).
  set (h3 := setArrays h1 (<[l := xs]> (arrays h1))).
  set (h4 := setArrays h1 (<[l := GoStrings.sortStrings xs]> (arrays h1))).
  assert (Hread2 : readSlice h2 targets = Some xs)
    by exact (readSlice_alloc h1 targets xs _ Hread Hlen).
  assert (Hcopy : copyStrings {| base := Some l; off := 0; len := n |}
                    targets h2 = Some h3).
  { unfold copyStrings. cbn [len]. fold n. rewrite Nat.min_id.
    replace (slicePrefix targets n) with targets
      by (unfold n; destruct targets; reflexivity).
    rewrite Hread2. cbn [mbind option_bind].
    change (slicePrefix {| base := Some l; off := 0; len := n |} n)
      with {| base := Some l; off := 0; len := n |}.
    rewrite (writeSlice_whole h2 l (replicate n EmptyString) xs n);
      [|apply lookup_insert_eq|apply length_replicate|exact Hxs].
    unfold h2, h3, setArrays. cbn [schemas propmaps arrays].
    rewrite insert_insert_eq. reflexivity. }
  assert (Hsort : sortStringsInPlace {| base := Some l; off := 0; len := n |}
                    h3 = Some h4).
  { unfold sortStringsInPlace.
    rewrite (readSlice_whole h3 l xs n); [|apply lookup_insert_eq|exact Hxs].
    cbn [mbind option_bind].
    rewrite (writeSlice_whole h3 l xs _ n);
      [|apply lookup_insert_eq|exact Hxs
       |rewrite length_sortStrings; exact Hxs].
    unfold h3, h4, setArrays. cbn [schemas propmaps arrays].
    rewrite insert_insert_eq. reflexivity. }
  assert (Hsorted : readSlice h4 {| base := Some l; off := 0; len := n |}
                    = Some (GoStrings.sortStrings xs)).
  { apply readSlice_whole; [apply lookup_insert_eq|].
    rewrite length_sortStrings. exact Hxs. }
  unfold createTargetListHandler. rewrite Hget. fold n.
  destruct (Nat.eqb_spec n 0) as [Hn|_]; [contradiction|].
  unfold makeStrings. fold l. fold h2.
  rewrite Hcopy. cbn [mbind option_bind].
  rewrite Hsort. cbn [mbind option_bind].
  rewrite Hsorted. reflexivity.
Qed.

(** Whatever the provider answers, the handler completes with a call result
    and a nil error, and the result carries an error exactly when the
    provider failed: enumeration trouble never reaches the transport. *)
Theorem createTargetListHandler_never_escalates (p : Provider)
    (defaultTarget parameterName : string) (params : ToolHandlerParams)
    (h h1 : Heap) (targets : Slice) (err : option errors.error) :
  GetTargets p (Context_ params) h = ((targets, err), h1) ->
  (err = None -> is_Some (readSlice h1 targets)) ->
  exists callResult h2,
    createTargetListHandler ToUpper p parameterName defaultTarget params h
      = Some ((Some callResult, None), h2) /\
    (Error callResult = None <-> err = None).
Proof.
  intros Hget Hread. destruct err as [cause|].
  - eexists _, _. unfold createTargetListHandler. rewrite Hget.
    split; [reflexivity|]. simpl. split; discriminate.
  - destruct (Hread eq_refl) as [xs Hxs].
    destruct (Nat.eq_dec (len targets) 0) as [Hlen|Hlen].
    + eexists _, _.
      rewrite (HandlerProps.handler_no_targets ToUpper p defaultTarget
                 parameterName params h h1 targets Hget Hlen).
      split; [reflexivity|]. split; reflexivity.
    + eexists _, _.
      rewrite (createTargetListHandler_nonempty p defaultTarget parameterName
                 params h h1 targets xs Hget Hlen Hxs).
      split; [reflexivity|]. split; reflexivity.
Qed.

(** The error of the result wraps the provider's error, so [errors.Is] sees
    through it: for every package-level variable, the result's error
    matches the sentinel held in it exactly when the provider's error
    does. *)
Theorem createTargetListHandler_keeps_error_identity (p : Provider)
    (defaultTarget parameterName : string) (params : ToolHandlerParams)
    (h h1 : Heap) (targets : Slice) (cause : errors.error) :
  GetTargets p (Context_ params) h = ((targets, Some cause), h1) ->
  exists callResult e,
    createTargetListHandler ToUpper p parameterName defaultTarget params h
      = Some ((Some callResult, None), h1) /\
    Error callResult = Some e /\
    forall var, errors.Is e var = errors.Is cause var.
Proof.
  intros Hget. eexists _, _. unfold createTargetListHandler. rewrite Hget.
  split; [reflexivity|]. split; [reflexivity|].
  intros var. reflexivity.
Qed.

(** The copy is sorted "for consistent output": two providers that list
    the same targets in different orders get the same call result. *)
Theorem createTargetListHandler_order_independent (p1 p2 : Provider)
    (defaultTarget parameterName : string) (params1 params2 : ToolHandlerParams)
    (ha ha1 hb hb1 : Heap) (targets1 targets2 : Slice)
    (xs ys : list string) :
  GetTargets p1 (Context_ params1) ha = ((targets1, None), ha1) ->
  GetTargets p2 (Context_ params2) hb = ((targets2, None), hb1) ->
  readSlice ha1 targets1 = Some xs ->
  readSlice hb1 targets2 = Some ys ->
  xs ≡ₚ ys ->
  exists callResult ha2 hb2,
    createTargetListHandler ToUpper p1 parameterName defaultTarget params1 ha
      = Some ((Some callResult, None), ha2) /\
    createTargetListHandler ToUpper p2 parameterName defaultTarget params2 hb
      = Some ((Some callResult, None), hb2).
Proof.
  intros Hget1 Hget2 Hxs Hys Hperm.
  pose proof (readSlice_length _ _ _ Hxs) as Hlen1.
  pose proof (readSlice_length _ _ _ Hys) as Hlen2.
  pose proof (Permutation_length Hperm) as Hlen.
  destruct (Nat.eq_dec (len targets1) 0) as [Hz|Hnz].
  - eexists _, _, _.
    rewrite (HandlerProps.handler_no_targets ToUpper p1 defaultTarget
               parameterName params1 ha ha1 targets1 Hget1 Hz).
    rewrite (HandlerProps.handler_no_targets ToUpper p2 defaultTarget
               parameterName params2 hb hb1 targets2 Hget2 ltac:(lia)).
    split; reflexivity.
  - eexists _, _, _.
    rewrite (createTargetListHandler_nonempty p1 defaultTarget parameterName
               params1 ha ha1 targets1 xs Hget1 Hnz Hxs).
    rewrite (createTargetListHandler_nonempty p2 defaultTarget parameterName
               params2 hb hb1 targets2 ys Hget2 ltac:(lia) Hys).
    rewrite (ReportFacts.sortStrings_unique xs ys Hperm).
    split; reflexivity.
Qed.

(** Every target the provider lists has its line in the report: the marker
    (a star for the default target, a space for any other), a space, the
    target and a newline. *)
Theorem createTargetListHandler_lists_every_target (p : Provider)
    (defaultTarget parameterName : string) (params : ToolHandlerParams)
    (h h1 : Heap) (targets : Slice) (xs : list string) :
  GetTargets p (Context_ params) h = ((targets, None), h1) ->
  len targets <> 0 ->
  readSlice h1 targets = Some xs ->
  exists callResult h2,
    createTargetListHandler ToUpper p parameterName defaultTarget params h
      = Some ((Some callResult, None), h2) /\
    Error callResult = None /\
    forall target, target ∈ xs ->
      GoStrings.Contains (Content callResult)
        ((if String.eqb target defaultTarget then "*" else " ")
           +:+ " " +:+ target +:+ GoStrings.newline) = true.
Proof.
  intros Hget Hlen Hxs. eexists _, _.
  split; [exact (createTargetListHandler_nonempty p defaultTarget
                   parameterName params h h1 targets xs Hget Hlen Hxs)|].
  split; [reflexivity|].
  intros target Hin. cbn [Content NewToolCallResult].
  unfold targetListReport. cbv zeta.
  rewrite (ReportFacts.foldl_lines
             (fun t => (if String.eqb t defaultTarget then "*" else " ")
                         +:+ " " +:+ t +:+ GoStrings.newline)).
  do 2 apply ReportFacts.Contains_app_r.
  apply GoStringsFacts.Contains_app_l.
  apply (ReportFacts.lines_contain
           (fun t => (if String.eqb t defaultTarget then "*" else " ")
                       +:+ " " +:+ t +:+ GoStrings.newline)).
  rewrite sortStrings_perm. exact Hin.
Qed.

End Handler.
Lemma threeTargets_read :
  readSlice threeTargetsHeap threeTargets
    = Some ["cluster-2"; "cluster-3"; "cluster-1"].
Proof. vm_compute. reflexivity. Qed.

Lemma sortedTargets_read :
  readSlice sortedTargetsHeap threeTargets
    = Some ["cluster-1"; "cluster-2"; "cluster-3"].
Proof. vm_compute. reflexivity. Qed.

Lemma createTargetListHandler_never_escalates_witness :
  exists callResult h2,
    createTargetListHandler (fun s => s) (mockProvider threeTargets None)
      "cluster" "cluster-1" background threeTargetsHeap
      = Some ((Some callResult, None), h2) /\
    Error callResult = None.
Proof.
  destruct (createTargetListHandler_never_escalates (fun s => s)
              (mockProvider threeTargets None) "cluster-1" "cluster"
              background threeTargetsHeap threeTargetsHeap threeTargets None
              eq_refl (fun _ => mk_is_Some _ _ threeTargets_read))
    as (callResult & h2 & Hrun & Herr).
  exists callResult, h2. split; [exact Hrun|]. apply Herr. reflexivity.
Defined.

Lemma createTargetListHandler_keeps_error_identity_witness :
  exists callResult e,
    createTargetListHandler (fun s => s)
      (mockProvider nilSlice (Some contextCanceled))
      "cluster" "cluster-1" background emptyHeap
      = Some ((Some callResult, None), emptyHeap) /\
    Error callResult = Some e /\
    errors.Is e "context.Canceled" = true.
Proof.
  destruct (createTargetListHandler_keeps_error_identity (fun s => s)
              (mockProvider nilSlice (Some contextCanceled))
              "cluster-1" "cluster" background emptyHeap emptyHeap nilSlice
              contextCanceled eq_refl)
    as (callResult & e & Hrun & He & HIs).
  exists callResult, e. split; [exact Hrun|]. split; [exact He|].
  rewrite HIs. reflexivity.
Defined.

Lemma createTargetListHandler_order_independent_witness :
  exists callResult ha2 hb2,
    createTargetListHandler (fun s => s) (mockProvider threeTargets None)
      "cluster" "cluster-1" background threeTargetsHeap
      = Some ((Some callResult, None), ha2) /\
    createTargetListHandler (fun s => s) (mockProvider threeTargets None)
      "cluster" "cluster-1" background sortedTargetsHeap
      = Some ((Some callResult, None), hb2).
Proof.
  apply (createTargetListHandler_order_independent (fun s => s)
           (mockProvider threeTargets None) (mockProvider threeTargets None)
           "cluster-1" "cluster" background background
           threeTargetsHeap threeTargetsHeap sortedTargetsHeap
           sortedTargetsHeap threeTargets threeTargets
           ["cluster-2"; "cluster-3"; "cluster-1"]
           ["cluster-1"; "cluster-2"; "cluster-3"]
           eq_refl eq_refl threeTargets_read sortedTargets_read).
  symmetry. exact (Permutation_cons_append ["cluster-2"; "cluster-3"] "cluster-1").
Defined.

Lemma createTargetListHandler_lists_every_target_witness :
  exists callResult h2,
    createTargetListHandler (fun s => s) (mockProvider threeTargets None)
      "cluster" "cluster-1" background threeTargetsHeap
      = Some ((Some callResult, None), h2) /\
    GoStrings.Contains (Content callResult)
      ("* cluster-1" +:+ GoStrings.newline) = true /\
    GoStrings.Contains (Content callResult)
      ("  cluster-3" +:+ GoStrings.newline) = true.
Proof.
  destruct (createTargetListHandler_lists_every_target (fun s => s)
              (mockProvider threeTargets None) "cluster-1" "cluster"
              background threeTargetsHeap threeTargetsHeap threeTargets
              ["cluster-2"; "cluster-3"; "cluster-1"]
              eq_refl ltac:(discriminate) threeTargets_read)
    as (callResult & h2 & Hrun & _ & Hlines).
  exists callResult, h2. split; [exact Hrun|]. split.
  - apply (Hlines "cluster-1"). do 2 apply list_elem_of_further.
    apply list_elem_of_here.
  - apply (Hlines "cluster-3"). apply list_elem_of_further.
    apply list_elem_of_here.
Defined.

End HandlerMore.

(** ** pkg/toolsets/config: the two handlers *)

Module ConfigMore.
Import api Mcp Observe Fixtures Memory MemoryFacts.

Section Handlers.
Variable GetTargets :
  ToolHandlerParams -> Context -> Heap -> (Slice * option errors.error) * Heap.
Variable GetDefaultTarget : ToolHandlerParams -> string.
Variable GetArguments : ToolHandlerParams -> gmap string Output.Value.
Variable KubeConfig : Type.
Variable ConfigurationView :
  ToolHandlerParams -> bool -> KubeConfig + errors.error.
Variable MarshalYaml : KubeConfig -> string * option errors.error.

(** [contextsList] completes with a call result and a nil error whatever
    the lookup of the contexts gives, the result carrying an error exactly
    when the lookup failed; it allocates nothing: the heap it leaves is the
    heap the lookup left. *)
Theorem contextsList_never_escalates (params : ToolHandlerParams)
    (h h1 : Heap) (contexts : Slice) (err : option errors.error) :
  GetTargets params (Context_ params) h = ((contexts, err), h1) ->
  (err = None -> is_Some (readSlice h1 contexts)) ->
  exists callResult,
    config.contextsList GetTargets GetDefaultTarget params h
      = Some ((Some callResult, None), h1) /\
    (Error callResult = None <-> err = None) /\
    (err = None -> len contexts = 0 ->
       Content callResult = "No contexts found in kubeconfig").
Proof.
  intros Hget Hread. unfold config.contextsList. rewrite Hget.
  destruct err as [cause|].
  - eexists. split; [reflexivity|]. simpl.
    split; [split; discriminate|discriminate].
  - destruct (Hread eq_refl) as [xs Hxs]. rewrite Hxs.
    destruct (Nat.eqb_spec (len contexts) 0) as [Hlen|Hlen].
    + eexists. split; [reflexivity|]. split; [split; reflexivity|].
      reflexivity.
    + eexists. split; [reflexivity|]. split; [split; reflexivity|].
      intros _ Hz. contradiction.
Qed.

(** When the lookup fails, the result's error quotes the cause's text after
    "failed to list contexts: " but does not wrap it: it unwraps to nothing
    and matches the sentinel of no package-level variable, whatever the
    cause was. *)
Theorem contextsList_flattens_the_error (params : ToolHandlerParams)
    (h h1 : Heap) (contexts : Slice) (cause : errors.error) :
  GetTargets params (Context_ params) h = ((contexts, Some cause), h1) ->
  exists callResult e,
    config.contextsList GetTargets GetDefaultTarget params h
      = Some ((Some callResult, None), h1) /\
    Content callResult = "" /\
    Error callResult = Some e /\
    errors.Error e = "failed to list contexts: " +:+ errors.Error cause /\
    errors.Unwrap e = None /\
    forall var, errors.Is e var = false.
Proof.
  intros Hget. unfold config.contextsList. rewrite Hget.
  eexists _, _. split; [reflexivity|]. split; [reflexivity|].
  split; [reflexivity|]. split; [reflexivity|]. split; [reflexivity|].
  intros var. reflexivity.
Qed.

(** On a non-empty list the report has the contexts' lines as one block, in
    the order the lookup gave them (nothing is sorted): marker and context
    with no space between, the marker a star for the default context. *)
Theorem contextsList_keeps_the_order (params : ToolHandlerParams)
    (h h1 : Heap) (contexts : Slice) (xs : list string) :
  GetTargets params (Context_ params) h = ((contexts, None), h1) ->
  len contexts <> 0 ->
  readSlice h1 contexts = Some xs ->
  let line context :=
    (if String.eqb context (GetDefaultTarget params) then "*" else " ")
      +:+ context +:+ GoStrings.newline in
  exists callResult,
    config.contextsList GetTargets GetDefaultTarget params h
      = Some ((Some callResult, None), h1) /\
    Error callResult = None /\
    GoStrings.Contains (Content callResult)
      (foldr (fun context rest => line context +:+ rest) "" xs) = true /\
    forall context, context ∈ xs ->
      GoStrings.Contains (Content callResult) (line context) = true.
Proof.
  intros Hget Hlen Hxs line. unfold config.contextsList. rewrite Hget, Hxs.
  destruct (Nat.eqb_spec (len contexts) 0) as [Hz|_]; [contradiction|].
  eexists. split; [reflexivity|]. split; [reflexivity|].
  cbn [Content NewToolCallResult mbind option_bind].
  unfold config.contextsReport. cbv zeta.
  rewrite (ReportFacts.foldl_lines line).
  split.
  - do 2 apply ReportFacts.Contains_app_r.
    apply GoStringsFacts.Contains_app_l.
    rewrite <- (ReportFacts.app_nil_r (foldr _ _ xs)) at 1.
    apply GoStringsFacts.Contains_prefix.
  - intros context Hin.
    do 2 apply ReportFacts.Contains_app_r.
    apply GoStringsFacts.Contains_app_l.
    apply (ReportFacts.lines_contain line). exact Hin.
Qed.

(** [configurationView] asks for the minified configuration unless the
    "minified" argument is the boolean false: a missing argument, or one
    that is not a boolean, counts as true.  A failure of the view or of the
    YAML marshalling comes back inside the call result, after "failed to
    get configuration: ", with a nil error; a marshalling failure keeps the
    text the marshaller returned. *)
Theorem configurationView_minifies_by_default (params : ToolHandlerParams)
    (h : Heap) :
  exists callResult minify,
    config.configurationView GetArguments KubeConfig ConfigurationView
      MarshalYaml params h = Some ((Some callResult, None), h) /\
    (minify = false
     <-> GetArguments params !! "minified" = Some (Output.Boolean false)) /\
    match ConfigurationView params minify with
    | inr cause =>
        Content callResult = "" /\
        Error callResult =
          Some (errors.errorString
                  ("failed to get configuration: " +:+ errors.Error cause))
    | inl ret =>
        Content callResult = fst (MarshalYaml ret) /\
        Error callResult =
          match snd (MarshalYaml ret) with
          | Some cause =>
              Some (errors.errorString
                      ("failed to get configuration: " +:+ errors.Error cause))
          | None => None
          end
    end.
Proof.
  unfold config.configurationView.
  set (minify := match GetArguments params !! "minified" with
                 | Some (Output.Boolean b) => b
                 | _ => true
                 end).
  assert (Hminify : minify = false
            <-> GetArguments params !! "minified"
                = Some (Output.Boolean false)).
  { unfold minify.
    destruct (GetArguments params !! "minified") as [[ | [|] | | | | ]|];
      split; congruence. }
  destruct (ConfigurationView params minify) as [ret|cause] eqn:Hview.
  - destruct (MarshalYaml ret) as [yaml [cause|]] eqn:Hyaml;
      eexists _, minify; (split; [reflexivity|]); (split; [exact Hminify|]);
      rewrite Hview, Hyaml; split; reflexivity.
  - eexists _, minify. split; [reflexivity|]. split; [exact Hminify|].
    rewrite Hview. split; reflexivity.
Qed.

(** Allocating a schema, or a table, disturbs nothing that was there. *)
Lemma newSchema_keeps s h l x :
  schemas h !! l = Some x -> schemas (snd (newSchema s h)) !! l = Some x.
Proof.
  intros Hl. simpl. rewrite lookup_insert_ne; [exact Hl|].
  intros Heq. symmetry in Heq. revert Heq.
  apply MutatorProps.allocated_not_fresh. eauto.
Qed.

Lemma newSchema_allocates s h :
  schemas (snd (newSchema s h)) !! fst (newSchema s h) = Some s.
Proof. simpl. apply lookup_insert_eq. Qed.

(** The toolset's two descriptors are allocated without disturbing what
    the heap held, and leave it closed.  Both are object-typed, cluster-aware
    by default and not flagged as target-list providers; neither has the
    placeholder's name.  So under multi-target topology the parameter
    mutator succeeds on each and binds the parameter in its table, and the
    target-list mutator leaves each as it is. *)
Theorem initConfiguration_ready (ToUpper : string -> string)
    (defaultTarget parameterName : string) (p : Provider) (h : Heap) :
  closedHeap h ->
  exists contexts view h0,
    config.initConfiguration GetTargets GetDefaultTarget GetArguments
      KubeConfig ConfigurationView MarshalYaml h = ([contexts; view], h0) /\
    closedHeap h0 /\
    (forall l s, schemas h !! l = Some s -> schemas h0 !! l = Some s) /\
    (forall mp (pm : gmap string loc),
       propmaps h !! mp = Some pm -> propmaps h0 !! mp = Some pm) /\
    arrays h0 = arrays h /\
    Name (Tool_ contexts) <> Name (Tool_ view) /\
    forall tool, tool ∈ [contexts; view] ->
      inputSchemaType h0 tool = Some "object" /\
      IsClusterAware tool = true /\
      IsTargetListProvider tool = false /\
      WithTargetListTool ToUpper defaultTarget parameterName p tool h0
        = Some (tool, h0) /\
      exists tool' h' sp s mp (pm : gmap string loc) pp,
        WithTargetParameter defaultTarget parameterName true tool h0
          = Some (tool', h') /\
        InputSchema (Tool_ tool') = Some sp /\
        schemas h' !! sp = Some s /\
        jsonschema.Type_ s = "object" /\
        jsonschema.Properties s = Some mp /\
        propmaps h' !! mp = Some pm /\
        pm !! parameterName = Some pp /\
        schemas h' !! pp = Some (baseSchema defaultTarget parameterName).
Proof.
  intros Hclosed.
  eexists _, _, _. split; [reflexivity|].
  set (l1 := fresh (dom (schemas h))).
  set (ha := setSchemas h (<[l1 := _]> (schemas h))).
  set (l2 := fresh (dom (schemas ha))).
  set (hb := setSchemas ha (<[l2 := _]> (schemas ha))).
  set (table := fresh (dom (propmaps hb))).
  set (hc := setPropmaps hb (<[table := ∅]> (propmaps hb))).
  set (hd := setPropmaps hc (<[table := {[ "minified" := l2 ]}]> (propmaps hc))).
  set (l3 := fresh (dom (schemas hd))).
  set (h0 := setSchemas hd (<[l3 := _]> (schemas hd))).
  assert (Ha : closedHeap ha)
    by (refine (MutatorProps.closedHeap_store_schema h l1 _ Hclosed _);
        exact I).
  assert (Hb : closedHeap hb)
    by (refine (MutatorProps.closedHeap_store_schema ha l2 _ Ha _); exact I).
  assert (Hc : closedHeap hc)
    by (refine (MutatorProps.closedHeap_store_propmap hb table ∅ Hb _);
        apply map_Forall_empty).
  assert (Hd : closedHeap hd).
  { refine (MutatorProps.closedHeap_store_propmap hc table _ Hc _).
    apply map_Forall_singleton. apply (mk_is_Some _ _ (lookup_insert_eq _ _ _)). }
  assert (H0 : closedHeap h0).
  { refine (MutatorProps.closedHeap_store_schema hd l3 _ Hd _).
    apply (mk_is_Some _ _ (lookup_insert_eq _ _ _)). }
  assert (Hl1 : schemas h0 !! l1 = Some _)
    by (apply (newSchema_keeps _ hd), (newSchema_keeps _ ha),
          (newSchema_allocates _ h)).
  assert (Hl3 : schemas h0 !! l3 = Some _) by apply (newSchema_allocates _ hd).
  split; [exact H0|].
  split.
  { intros l s Hl.
    apply (newSchema_keeps _ hd), (newSchema_keeps _ ha),
      (newSchema_keeps _ h), Hl. }
  split.
  { intros mp pm Hmp. cbn [h0 hd hc setSchemas setPropmaps propmaps].
    assert (Hne : mp <> table)
      by (apply MutatorProps.allocated_not_fresh; eauto).
    rewrite !lookup_insert_ne by congruence. exact Hmp. }
  split; [reflexivity|].
  split; [discriminate|].
  intros tool Htool.
  assert (Hcases : (InputSchema (Tool_ tool) = Some l1 \/
                    InputSchema (Tool_ tool) = Some l3) /\
                   IsClusterAware tool = true /\
                   IsTargetListProvider tool = false /\
                   String.eqb (Name (Tool_ tool)) TargetsListToolName = false).
  { apply list_elem_of_In in Htool. destruct Htool as [<-|[<-|[]]].
    - split; [left; reflexivity|]. repeat split.
    - split; [right; reflexivity|]. repeat split. }
  destruct Hcases as (Hsp & Hca & Htlp & Hname).
  assert (Hschema : exists sp s,
            InputSchema (Tool_ tool) = Some sp /\
            schemas h0 !! sp = Some s /\ jsonschema.Type_ s = "object").
  { destruct Hsp as [Hsp|Hsp]; eexists _, _;
      (split; [exact Hsp|]); (split; [eassumption|reflexivity]). }
  destruct Hschema as (sp & s & Hsp' & Hs & Hty).
  assert (Halloc : schemaAllocated h0 tool)
    by (unfold schemaAllocated; rewrite Hsp'; eauto).
  assert (Hobject : inputSchemaType h0 tool = Some "object").
  { unfold inputSchemaType. rewrite Hsp'. cbn [mbind option_bind].
    rewrite Hs. cbn [mbind option_bind]. rewrite Hty. reflexivity. }
  destruct (MutatorProps.WithTargetParameter_binds defaultTarget
              parameterName tool h0 Hca Halloc H0)
    as (sp0 & s' & mp & pm & pp & h' & Hrun & Hs' & Hty' & Hp & Hmp & Hpm
        & Hpp & _).
  rewrite Hobject in Hty'.
  split; [exact Hobject|]. split; [exact Hca|]. split; [exact Htlp|].
  split; [unfold WithTargetListTool; rewrite Hname; reflexivity|].
  eexists _, h', sp0, s', mp, pm, pp.
  split; [exact Hrun|]. split; [reflexivity|]. split; [exact Hs'|].
  split; [exact Hty'|]. split; [exact Hp|]. split; [exact Hmp|].
  split; [exact Hpm|exact Hpp].
Qed.

End Handlers.
Lemma contextsList_never_escalates_witness :
  exists callResult,
    config.contextsList threeContexts defaultIsCluster2 background
      threeTargetsHeap
      = Some ((Some callResult, None), threeTargetsHeap) /\
    Error callResult = None.
Proof.
  destruct (contextsList_never_escalates threeContexts defaultIsCluster2
              background threeTargetsHeap threeTargetsHeap threeTargets None
              eq_refl
              (fun _ => mk_is_Some _ _ HandlerMore.threeTargets_read))
    as (callResult & Hrun & Herr & _).
  exists callResult. split; [exact Hrun|]. apply Herr. reflexivity.
Defined.

Lemma contextsList_flattens_the_error_witness :
  exists callResult e,
    config.contextsList cancelledLookup defaultIsCluster2 background emptyHeap
      = Some ((Some callResult, None), emptyHeap) /\
    Error callResult = Some e /\
    errors.Error e = "failed to list contexts: context canceled" /\
    errors.Is contextCanceled "context.Canceled" = true /\
    errors.Is e "context.Canceled" = false.
Proof.
  destruct (contextsList_flattens_the_error cancelledLookup defaultIsCluster2
              background emptyHeap emptyHeap
              {| base := None; off := 0; len := 0 |} contextCanceled eq_refl)
    as (callResult & e & Hrun & _ & He & Htext & _ & HIs).
  exists callResult, e. split; [exact Hrun|]. split; [exact He|].
  split; [exact Htext|]. split; [reflexivity|]. apply HIs.
Defined.

Lemma contextsList_keeps_the_order_witness :
  exists callResult,
    config.contextsList threeContexts defaultIsCluster2 background
      threeTargetsHeap
      = Some ((Some callResult, None), threeTargetsHeap) /\
    GoStrings.Contains (Content callResult)
      ("*cluster-2" +:+ GoStrings.newline +:+
       " cluster-3" +:+ GoStrings.newline +:+
       " cluster-1" +:+ GoStrings.newline) = true.
Proof.
  destruct (contextsList_keeps_the_order threeContexts defaultIsCluster2
              background threeTargetsHeap threeTargetsHeap threeTargets
              ["cluster-2"; "cluster-3"; "cluster-1"]
              eq_refl ltac:(discriminate) HandlerMore.threeTargets_read)
    as (callResult & Hrun & _ & Hblock & _).
  exists callResult. split; [exact Hrun|]. exact Hblock.
Defined.

Lemma initConfiguration_ready_witness :
  exists contexts view h0,
    config.initConfiguration threeContexts defaultIsCluster2
      (fun _ => ∅) unit (fun _ _ => inl tt) (fun _ => ("", None)) emptyHeap
      = ([contexts; view], h0) /\
    closedHeap h0 /\
    inputSchemaType h0 view = Some "object".
Proof.
  destruct (initConfiguration_ready threeContexts defaultIsCluster2
              (fun _ => ∅) unit (fun _ _ => inl tt) (fun _ => ("", None))
              (fun s => s) "default" "cluster" (mockProvider nilSlice None)
              emptyHeap (conj (map_Forall_empty _) (map_Forall_empty _)))
    as (contexts & view & h0 & Hrun & Hclosed & _ & _ & _ & _ & Htools).
  exists contexts, view, h0. split; [exact Hrun|]. split; [exact Hclosed|].
  apply Htools. apply list_elem_of_further, list_elem_of_here.
Defined.

End ConfigMore.
